(** * json_logging: a shallow embedding of the correlation-id, adapter,
      request-context and formatter code, with the properties of its
      specification.

    Sources embedded here:
    - [json_logging/__init__.py]: the module globals, the framework
      registry ([register_framework_support]), [init], [RequestInfo] and the
      three formatters;
    - [json_logging/framework/django/__init__.py]: the Django request and
      response adapters.

    Python values are modelled by the inductive [pyval]; an exception is a
    value of [result]; a dict whose order reaches the output is an
    association list with Python's update discipline, a dict used as a map
    (the registry, Django's [META]) is a [gmap]. *)

From Stdlib Require Import ZArith Lia Ascii String List Bool.
From Stdlib Require Import Floats.SpecFloat.
From stdpp Require Import base gmap strings list pretty.

Local Open Scope string_scope.
Local Open Scope Z_scope.

(** ** Python values, exceptions *)

Inductive pyval : Type :=
| PNone
| PBool (b : bool)
| PInt (z : Z)
| PStr (s : string).

Inductive pyexc : Type :=
| AttributeError (msg : string)
| KeyError (key : string)
| OSError
| RuntimeError (msg : string)
| ValueError (msg : string)
| UsageError (msg : string).

Inductive result (A : Type) : Type :=
| Ok (a : A)
| Raise (e : pyexc).
Arguments Ok {A} a.
Arguments Raise {A} e.

(** Sequencing stops at the first exception: stdpp's [x ← c; k] notation. *)
#[global] Instance result_ret : MRet result := fun A a => Ok a.
#[global] Instance result_bind : MBind result := fun A B k r =>
  match r with
  | Ok a => k a
  | Raise e => Raise e
  end.

(** Code that mutates an object of type [S] and may raise: the state is
    kept when an exception leaves the function, as Python keeps the
    assignments made before a [raise]. *)
Definition py (S A : Type) : Type := S -> S * result A.

#[global] Instance py_ret {S} : MRet (py S) := fun A a s => (s, Ok a).
#[global] Instance py_bind {S} : MBind (py S) := fun A B k m s =>
  match m s with
  | (s', Ok a) => k a s'
  | (s', Raise e) => (s', Raise e)
  end.

Definition raise {S A} (e : pyexc) : py S A := fun s => (s, Raise e).
Definition get_state {S} : py S S := fun s => (s, Ok s).
Definition modify {S} (f : S -> S) : py S unit := fun s => (f s, Ok tt).
Definition lift {S A} (r : result A) : py S A := fun s => (s, r).

Definition is_ok {A} (r : result A) : bool :=
  match r with Ok _ => true | Raise _ => false end.

Definition raises {A} (r : result A) : bool := negb (is_ok r).

(** ** Strings: the pieces of [str] the adapters use

    [str.upper], [str.lower] and [str.replace] are modelled on the ASCII
    letters; a byte outside [a-z]/[A-Z] is kept. Header and framework names
    are ASCII. *)

Definition ascii_upper (c : ascii) : ascii :=
  let n := N_of_ascii c in
  if ((97 <=? n) && (n <=? 122))%N then ascii_of_N (n - 32) else c.

Definition ascii_lower (c : ascii) : ascii :=
  let n := N_of_ascii c in
  if ((65 <=? n) && (n <=? 90))%N then ascii_of_N (n + 32) else c.

Fixpoint str_map (f : ascii -> ascii) (s : string) : string :=
  match s with
  | EmptyString => EmptyString
  | String c s' => String (f c) (str_map f s')
  end.

Definition upper (s : string) : string := str_map ascii_upper s.
Definition lower (s : string) : string := str_map ascii_lower s.

(** [s.replace(old, new)] for one-character [old] and [new]. *)
Definition replace_char (old new : ascii) (s : string) : string :=
  str_map (fun c => if Ascii.eqb c old then new else c) s.

(** Truth value of a [str]: the empty string is falsy. *)
Definition str_truthy (s : string) : bool :=
  match s with EmptyString => false | _ => true end.

(** ** Dicts whose order is observable

    The JSON object a formatter builds is a [dict]: keys are unique and keep
    the position of their first insertion; assigning to a key already
    present replaces its value in place. *)

Definition pydict : Type := list (string * pyval).

(** [d[k] = v] *)
Fixpoint dict_set (k : string) (v : pyval) (d : pydict) : pydict :=
  match d with
  | [] => [(k, v)]
  | (k', v') :: d' =>
      if String.eqb k k' then (k, v) :: d' else (k', v') :: dict_set k v d'
  end.

(** [d.get(k)] *)
Fixpoint dict_get (k : string) (d : pydict) : option pyval :=
  match d with
  | [] => None
  | (k', v') :: d' => if String.eqb k k' then Some v' else dict_get k d'
  end.

(** [d.update(other)] *)
Definition dict_update (d other : pydict) : pydict :=
  fold_left (fun acc kv => dict_set (fst kv) (snd kv) acc) other d.

(** [d] without the key [k] *)
Fixpoint dict_remove (k : string) (d : pydict) : pydict :=
  match d with
  | [] => []
  | (k', v') :: d' =>
      if String.eqb k k' then dict_remove k d' else (k', v') :: dict_remove k d'
  end.

Definition dict_keys (d : pydict) : list string := map fst d.

(** Keys of a dict are pairwise distinct. *)
Definition dict_wf (d : pydict) : Prop := NoDup (dict_keys d).

(** ** Module constants of [json_logging/__init__.py] *)

Definition EMPTY_VALUE : string := "-".
Definition COMPONENT_ID : string := EMPTY_VALUE.
Definition COMPONENT_NAME : string := EMPTY_VALUE.
Definition COMPONENT_INSTANCE_INDEX : Z := 0.

(** ** The adapter interfaces

    [framework_base.py] declares [RequestAdapter] and [ResponseAdapter] as
    abstract classes; here they are records of operations over the
    framework's request and response types. An operation returns a
    [result], since a concrete adapter may raise. *)

Record RequestAdapter (Req : Type) : Type := {
  support_global_request_object : bool;
  get_http_header : Req -> string -> string -> result string;
  get_remote_user : Req -> result string;
  is_in_request_context : option Req -> bool;
  set_correlation_id : Req -> string -> Req;
  get_correlation_id_in_request_context : Req -> result string;
  get_protocol : Req -> result string;
  get_path : Req -> result string;
  get_content_length : Req -> result string;
  get_method : Req -> result string;
  get_remote_ip : Req -> result string;
  get_remote_port : Req -> result string
}.
Arguments support_global_request_object {Req} _.
Arguments get_http_header {Req} _ _ _ _.
Arguments get_remote_user {Req} _ _.
Arguments is_in_request_context {Req} _ _.
Arguments set_correlation_id {Req} _ _ _.
Arguments get_correlation_id_in_request_context {Req} _ _.
Arguments get_protocol {Req} _ _.
Arguments get_path {Req} _ _.
Arguments get_content_length {Req} _ _.
Arguments get_method {Req} _ _.
Arguments get_remote_ip {Req} _ _.
Arguments get_remote_port {Req} _ _.

Record ResponseAdapter (Resp : Type) : Type := {
  get_status_code : Resp -> result pyval;
  get_response_size : Resp -> result pyval;
  get_content_type : Resp -> result pyval
}.
Arguments get_status_code {Resp} _ _.
Arguments get_response_size {Resp} _ _.
Arguments get_content_type {Resp} _ _.

(** ** The Django adapters ([framework/django/__init__.py]) *)

Module Django.

(** What the adapters read of a [django.http.HttpRequest]: the [META] dict,
    [path], [method] and, when the attribute exists, the user's name as
    [request.user.get_username()] gives it. *)
Record HttpRequest : Type := {
  META : gmap string string;
  path : string;
  method : string;
  user : option string
}.

(** What the adapters read of a Django response: [status_code], the header
    lookup behind [name in response] and [response[name]], and the outcome
    of [response.tell()]. *)
Record HttpResponse : Type := {
  status_code : Z;
  header : string -> option string;
  tell : result Z
}.

(** [request.META.get(key, default)] *)
Definition META_get (request : HttpRequest) (key dflt : string) : string :=
  match META request !! key with
  | Some v => v
  | None => dflt
  end.

(** [request.META[key] = value] *)
Definition META_set (request : HttpRequest) (key value : string) : HttpRequest :=
  {| META := <[key := value]> (META request);
     path := path request;
     method := method request;
     user := user request |}.

(** ['HTTP_' + header_name.upper().replace('-', '_')] *)
Definition header_name_converted (header_name : string) : string :=
  "HTTP_" +:+ replace_char "-" "_" (upper header_name).

Module DjangoRequestAdapter.

Definition support_global_request_object : bool := false.

Definition get_http_header (request : HttpRequest) (header_name dflt : string)
  : result string :=
  Ok (META_get request (header_name_converted header_name) dflt).

Definition get_remote_user (request : HttpRequest) : result string :=
  match user request with
  | Some username => Ok username
  | None => Ok EMPTY_VALUE
  end.

Definition is_in_request_context (request : option HttpRequest) : bool :=
  match request with Some _ => true | None => false end.

Definition set_correlation_id (request : HttpRequest) (value : string) : HttpRequest :=
  META_set request "HTTP_X_CORRELATION_ID" value.

Definition get_correlation_id_in_request_context (request : HttpRequest) : result string :=
  Ok (META_get request "HTTP_X_CORRELATION_ID" EMPTY_VALUE).

Definition get_protocol (request : HttpRequest) : result string :=
  Ok (META_get request "SERVER_PROTOCOL" EMPTY_VALUE).

Definition get_path (request : HttpRequest) : result string := Ok (path request).

Definition get_content_length (request : HttpRequest) : result string :=
  Ok (META_get request "CONTENT_LENGTH" EMPTY_VALUE).

Definition get_method (request : HttpRequest) : result string := Ok (method request).

Definition get_remote_ip (request : HttpRequest) : result string :=
  Ok (META_get request "REMOTE_ADDR" EMPTY_VALUE).

Definition get_remote_port (_ : HttpRequest) : result string := Ok EMPTY_VALUE.

End DjangoRequestAdapter.

Module DjangoResponseAdapter.

Definition get_status_code (response : HttpResponse) : result pyval :=
  Ok (PInt (status_code response)).

Definition get_response_size (response : HttpResponse) : result pyval :=
  match header response "Content-Length" with
  | Some v => Ok (PStr v)
  | None =>
      match tell response with
      | Ok pos => Ok (PInt pos)
      | Raise OSError => Ok (PStr EMPTY_VALUE)
      | Raise e => Raise e
      end
  end.

(** [response['Content-Type']]: Django looks the header up under its
    lower-cased name, and a missing header is a [KeyError] on that name. *)
Definition get_content_type (response : HttpResponse) : result pyval :=
  match header response "Content-Type" with
  | Some v => Ok (PStr v)
  | None => Raise (KeyError "content-type")
  end.

End DjangoResponseAdapter.

(** The adapter instances, as calling the two classes gives them. *)
Definition request_adapter : RequestAdapter HttpRequest := {|
  support_global_request_object := DjangoRequestAdapter.support_global_request_object;
  get_http_header := DjangoRequestAdapter.get_http_header;
  get_remote_user := DjangoRequestAdapter.get_remote_user;
  is_in_request_context := DjangoRequestAdapter.is_in_request_context;
  set_correlation_id := DjangoRequestAdapter.set_correlation_id;
  get_correlation_id_in_request_context :=
    DjangoRequestAdapter.get_correlation_id_in_request_context;
  get_protocol := DjangoRequestAdapter.get_protocol;
  get_path := DjangoRequestAdapter.get_path;
  get_content_length := DjangoRequestAdapter.get_content_length;
  get_method := DjangoRequestAdapter.get_method;
  get_remote_ip := DjangoRequestAdapter.get_remote_ip;
  get_remote_port := DjangoRequestAdapter.get_remote_port
|}.

Definition response_adapter : ResponseAdapter HttpResponse := {|
  get_status_code := DjangoResponseAdapter.get_status_code;
  get_response_size := DjangoResponseAdapter.get_response_size;
  get_content_type := DjangoResponseAdapter.get_content_type
|}.

End Django.

(** ** Class objects, the registry and [init] *)

(** A class object: its name, the names of the classes it inherits from
    (itself included) and what calling it gives: an instance, or the
    exception its constructor raises. *)
Record pyclass (I : Type) : Type := {
  cls_name : string;
  cls_mro : list string;
  cls_call : result I
}.
Arguments cls_name {I} _.
Arguments cls_mro {I} _.
Arguments cls_call {I} _.

Definition issubclass {I} (c : pyclass I) (super : string) : bool :=
  bool_decide (super ∈ cls_mro c).

(** Modelled from the spec: [util.validate_subclass] ([util.py] is not among
    the sources). The registry "validates that supplied types satisfy the
    RequestAdapter/ResponseAdapter/configurator contracts (interface
    conformance, not instantiation) before storing"; a failed validation is
    a configuration error "raised immediately to the caller". *)
Definition validate_subclass {I} (subclass : pyclass I) (superclass : string)
  : result unit :=
  if issubclass subclass superclass then Ok tt
  else Raise (RuntimeError (cls_name subclass +:+ " is not a subclass of " +:+ superclass)).

(** An instance of a [framework_base.FrameworkConfigurator] subclass: its
    [config()] runs framework code, which returns or raises. *)
Record FrameworkConfigurator : Type := {
  config : result unit
}.

Inductive formatter_class : Type :=
| JSONLogFormatter
| JSONLogWebFormatter
| JSONRequestLogFormatter
| CustomFormatter (name : string).

Inductive log_level : Type := DEBUG | INFO | WARNING | ERROR.

(** What the module does to its collaborators: records handed to the
    library logger, and the calls into the framework configurator and the
    [logging] module. *)
Inductive event : Type :=
| Log (level : log_level) (msg : string)
| AppConfiguratorConfig (cls : string)
| SetDefaultFormatter (f : formatter_class)
| UpdateFormatterForLoggers (f : formatter_class).

Section Registry.
Context {Req Resp : Type}.

(** Modelled from the spec: [util.RequestUtil] "holds the active
    RequestAdapter/ResponseAdapter instances for the process". *)
Record RequestUtil : Type := {
  request_adapter : RequestAdapter Req;
  response_adapter : ResponseAdapter Resp
}.

(** The dict stored per framework name. *)
Record FrameworkBinding : Type := {
  app_configurator : option (pyclass FrameworkConfigurator);
  app_request_instrumentation_configurator : pyclass unit;
  request_adapter_class : pyclass (RequestAdapter Req);
  response_adapter_class : pyclass (ResponseAdapter Resp)
}.

(** The module globals the embedded functions read and write, and the
    trace of what was emitted. *)
Record globals : Type := {
  ENABLE_JSON_LOGGING : bool;
  CREATE_CORRELATION_ID_IF_NOT_EXISTS : bool;
  CORRELATION_ID_HEADERS : list string;
  CORRELATION_ID_GENERATOR : nat -> string;
  JSON_SERIALIZER : pydict -> string;
  _framework_support_map : gmap string FrameworkBinding;
  _current_framework : option FrameworkBinding;
  _request_util : option RequestUtil;
  emitted : list event
}.

(** The globals as the module body leaves them before any registration.
    [ENABLE_JSON_LOGGING] is read from the environment at import;
    [uuid1 n] stands for [str(uuid.uuid1())] at the [n]-th call of the
    generator and [dumps] for [json.dumps]. *)
Definition initial_globals (enable_json_logging : bool) (uuid1 : nat -> string)
    (dumps : pydict -> string) : globals := {|
  ENABLE_JSON_LOGGING := enable_json_logging;
  CREATE_CORRELATION_ID_IF_NOT_EXISTS := true;
  CORRELATION_ID_HEADERS := ["X-Correlation-ID"; "X-Request-ID"];
  CORRELATION_ID_GENERATOR := uuid1;
  JSON_SERIALIZER := dumps;
  _framework_support_map := ∅;
  _current_framework := None;
  _request_util := None;
  emitted := []
|}.

Definition set_framework_support_map (m : gmap string FrameworkBinding) (g : globals)
  : globals := {|
  ENABLE_JSON_LOGGING := ENABLE_JSON_LOGGING g;
  CREATE_CORRELATION_ID_IF_NOT_EXISTS := CREATE_CORRELATION_ID_IF_NOT_EXISTS g;
  CORRELATION_ID_HEADERS := CORRELATION_ID_HEADERS g;
  CORRELATION_ID_GENERATOR := CORRELATION_ID_GENERATOR g;
  JSON_SERIALIZER := JSON_SERIALIZER g;
  _framework_support_map := m;
  _current_framework := _current_framework g;
  _request_util := _request_util g;
  emitted := emitted g
|}.

Definition set_current_framework (b : FrameworkBinding) (g : globals) : globals := {|
  ENABLE_JSON_LOGGING := ENABLE_JSON_LOGGING g;
  CREATE_CORRELATION_ID_IF_NOT_EXISTS := CREATE_CORRELATION_ID_IF_NOT_EXISTS g;
  CORRELATION_ID_HEADERS := CORRELATION_ID_HEADERS g;
  CORRELATION_ID_GENERATOR := CORRELATION_ID_GENERATOR g;
  JSON_SERIALIZER := JSON_SERIALIZER g;
  _framework_support_map := _framework_support_map g;
  _current_framework := Some b;
  _request_util := _request_util g;
  emitted := emitted g
|}.

Definition set_request_util (ru : RequestUtil) (g : globals) : globals := {|
  ENABLE_JSON_LOGGING := ENABLE_JSON_LOGGING g;
  CREATE_CORRELATION_ID_IF_NOT_EXISTS := CREATE_CORRELATION_ID_IF_NOT_EXISTS g;
  CORRELATION_ID_HEADERS := CORRELATION_ID_HEADERS g;
  CORRELATION_ID_GENERATOR := CORRELATION_ID_GENERATOR g;
  JSON_SERIALIZER := JSON_SERIALIZER g;
  _framework_support_map := _framework_support_map g;
  _current_framework := _current_framework g;
  _request_util := Some ru;
  emitted := emitted g
|}.

Definition emit (ev : event) : py globals unit := modify (fun g => {|
  ENABLE_JSON_LOGGING := ENABLE_JSON_LOGGING g;
  CREATE_CORRELATION_ID_IF_NOT_EXISTS := CREATE_CORRELATION_ID_IF_NOT_EXISTS g;
  CORRELATION_ID_HEADERS := CORRELATION_ID_HEADERS g;
  CORRELATION_ID_GENERATOR := CORRELATION_ID_GENERATOR g;
  JSON_SERIALIZER := JSON_SERIALIZER g;
  _framework_support_map := _framework_support_map g;
  _current_framework := _current_framework g;
  _request_util := _request_util g;
  emitted := emitted g ++ [ev]
|}).

Definition register_framework_support (name : string)
    (app_configurator : option (pyclass FrameworkConfigurator))
    (app_request_instrumentation_configurator : pyclass unit)
    (request_adapter_class : pyclass (RequestAdapter Req))
    (response_adapter_class : pyclass (ResponseAdapter Resp)) : py globals unit :=
  if negb (str_truthy name) then
    raise (RuntimeError "framework name can not be null or empty")
  else
    _ ← lift (validate_subclass request_adapter_class "RequestAdapter");
    _ ← lift (validate_subclass response_adapter_class "ResponseAdapter");
    _ ← lift (validate_subclass app_request_instrumentation_configurator
                "AppRequestInstrumentationConfigurator");
    _ ← match app_configurator with
        | Some c => lift (validate_subclass c "FrameworkConfigurator")
        | None => mret tt
        end;
    let name := lower name in
    g ← get_state;
    _ ← (if bool_decide (is_Some (_framework_support_map g !! name))
         then emit (Log WARNING ("Re-register framework " +:+ name))
         else mret tt);
    modify (fun g => set_framework_support_map
      (<[name := {| app_configurator := app_configurator;
                    app_request_instrumentation_configurator :=
                      app_request_instrumentation_configurator;
                    request_adapter_class := request_adapter_class;
                    response_adapter_class := response_adapter_class |}]>
         (_framework_support_map g)) g).

(** Modelled from the spec: the constructor of [util.RequestUtil], which
    instantiates the two adapter classes it is given; an exception of
    either constructor leaves it. *)
Definition RequestUtil_new (request_adapter_class : pyclass (RequestAdapter Req))
    (response_adapter_class : pyclass (ResponseAdapter Resp)) : result RequestUtil :=
  request_adapter ← cls_call request_adapter_class;
  response_adapter ← cls_call response_adapter_class;
  Ok {| request_adapter := request_adapter; response_adapter := response_adapter |}.

(** [str(framework_name)] *)
Definition str_of_name (framework_name : option string) : string :=
  match framework_name with Some s => s | None => "None" end.

Definition truthy_name (framework_name : option string) : bool :=
  match framework_name with Some s => str_truthy s | None => false end.

(** [init]. The statements run in the source's order: with a framework
    name, [_current_framework] is assigned first, then [util.RequestUtil]
    is called (it instantiates the registered adapter classes, so it may
    raise) and [_request_util] assigned, then the app configurator is
    instantiated and its [config()] run. The chosen formatter class is
    kept with the outcome of calling it, which only
    [logging._defaultFormatter = formatter()] asks for; what
    [util.update_formatter_for_loggers] does with the existing loggers is
    outside, the call is recorded. *)
Definition init (framework_name : option string) (custom_formatter : option (pyclass unit))
  : py globals unit :=
  g ← get_state;
  match _current_framework g with
  | Some _ => raise (RuntimeError "Can not call init more than once")
  | None =>
    _ ← emit (Log INFO ("init framework " +:+ str_of_name framework_name));
    formatter ←
      (if truthy_name framework_name then
         let framework_name := lower (str_of_name framework_name) in
         match _framework_support_map g !! framework_name with
         | None => raise (RuntimeError (framework_name +:+ "is not a supported framework"))
         | Some current =>
           _ ← modify (set_current_framework current);
           request_util ← lift (RequestUtil_new (request_adapter_class current)
                                                (response_adapter_class current));
           _ ← modify (set_request_util request_util);
           _ ← match ENABLE_JSON_LOGGING g, app_configurator current with
               | true, Some c =>
                   configurator ← lift (cls_call c);
                   _ ← emit (AppConfiguratorConfig (cls_name c));
                   lift (config configurator)
               | _, _ => mret tt
               end;
           mret (JSONLogWebFormatter, Ok tt)
         end
       else
         match custom_formatter with
         | Some c =>
           if issubclass c "Formatter" then mret (CustomFormatter (cls_name c), cls_call c)
           else raise (ValueError "custom_formatter is not subclass of logging.Formatter")
         | None => mret (JSONLogFormatter, Ok tt)
         end);
    _ ← (if negb (ENABLE_JSON_LOGGING g)
         then emit (Log WARNING "JSON format is not enable! To enable set ENABLE_JSON_LOGGING env var to either one of following values: ['true', '1', 'y', 'yes']")
         else
           _ ← lift (snd formatter);
           emit (SetDefaultFormatter (fst formatter)));
    _ ← emit (Log DEBUG "Update all existing logger to using JSONLogFormatter");
    emit (UpdateFormatterForLoggers (fst formatter))
  end.

End Registry.
Arguments RequestUtil : clear implicits.
Arguments FrameworkBinding : clear implicits.
Arguments globals : clear implicits.

(** ** Predicates on the registry *)

Section RegistryPredicates.
Context {Req Resp : Type}.

(** Registry keys are the lower-cased, non-empty names
    [register_framework_support] stores. *)
Definition registry_normalised (m : gmap string (FrameworkBinding Req Resp)) : Prop :=
  forall k, is_Some (m !! k) -> str_truthy k = true /\ lower k = k.

(** The classes handed to [register_framework_support] pass its
    validations. *)
Definition valid_classes (app_configurator : option (pyclass FrameworkConfigurator))
    (app_request_instrumentation_configurator : pyclass unit)
    (request_adapter_class : pyclass (RequestAdapter Req))
    (response_adapter_class : pyclass (ResponseAdapter Resp)) : Prop :=
  issubclass request_adapter_class "RequestAdapter" = true
  /\ issubclass response_adapter_class "ResponseAdapter" = true
  /\ issubclass app_request_instrumentation_configurator
       "AppRequestInstrumentationConfigurator" = true
  /\ match app_configurator with
     | Some c => issubclass c "FrameworkConfigurator" = true
     | None => True
     end.

End RegistryPredicates.

(** ** [datetime], [timedelta] and the float arithmetic of
       [update_response_status]

    The standard-library pieces the source calls, written as CPython
    computes them. *)

Record datetime : Type := {
  year : Z; month : Z; day : Z;
  hour : Z; minute : Z; second : Z; microsecond : Z
}.

Record timedelta : Type := {
  days : Z; seconds : Z; microseconds : Z
}.

Definition is_leap (y : Z) : bool :=
  (y mod 4 =? 0) && (negb (y mod 100 =? 0) || (y mod 400 =? 0)).

Definition days_before_year (y : Z) : Z :=
  let y := y - 1 in y * 365 + y / 4 - y / 100 + y / 400.

Definition DAYS_BEFORE_MONTH : list Z :=
  [0; 0; 31; 59; 90; 120; 151; 181; 212; 243; 273; 304; 334].

Definition days_before_month (y m : Z) : Z :=
  nth (Z.to_nat m) DAYS_BEFORE_MONTH 0 + (if (2 <? m) && is_leap y then 1 else 0).

Definition ymd2ord (y m d : Z) : Z :=
  days_before_year y + days_before_month y m + d.

Definition toordinal (dt : datetime) : Z := ymd2ord (year dt) (month dt) (day dt).

(** [timedelta(days, seconds, microseconds)] for integer arguments: the
    constructor carries microseconds into seconds and seconds into days,
    with floor division. *)
Definition timedelta_new (d s us : Z) : timedelta :=
  let s := s + us / 1000000 in
  {| days := d + s / 86400;
     seconds := s mod 86400;
     microseconds := us mod 1000000 |}.

(** [self - other] for two naive datetimes. *)
Definition datetime_sub (self other : datetime) : timedelta :=
  let days1 := toordinal self in
  let days2 := toordinal other in
  let secs1 := second self + minute self * 60 + hour self * 3600 in
  let secs2 := second other + minute other * 60 + hour other * 3600 in
  timedelta_new (days1 - days2) (secs1 - secs2) (microsecond self - microsecond other).

(** The position of a datetime on the time line, in microseconds since
    the start of day 0 of the proleptic calendar. *)
Definition datetime_microseconds (dt : datetime) : Z :=
  (toordinal dt * 86400 + hour dt * 3600 + minute dt * 60 + second dt) * 1000000
  + microsecond dt.

(** The elapsed time from [arrival] to [completion], in microseconds. *)
Definition elapsed_microseconds (arrival completion : datetime) : Z :=
  datetime_microseconds completion - datetime_microseconds arrival.

(** A finite binary64 value, [fmant * 2 ^ fexpo]. *)
Record pyfloat : Type := { fmant : Z; fexpo : Z }.

(** The integer nearest to [a / b], ties to even ([0 <= a], [0 < b]). *)
Definition rne_div (a b : Z) : Z :=
  let q := a / b in
  match 2 * (a mod b) ?= b with
  | Lt => q
  | Gt => q + 1
  | Eq => if Z.even q then q else q + 1
  end.

(** [n / (d * 2 ^ e)] as a fraction of integers. *)
Definition scaled (n d e : Z) : Z * Z :=
  if 0 <=? e then (n, d * 2 ^ e) else (n * 2 ^ (- e), d).

(** The exponent [e] with [2^52 <= n / (d * 2^e) < 2^53], for positive [n]
    and [d]. *)
Definition binade (n d : Z) : Z :=
  let e1 := Z.log2 n - Z.log2 d - 52 in
  let '(a, b) := scaled n d e1 in
  if 2 ^ 52 * b <=? a then e1 else e1 - 1.

(** [n / d] for two [int]s, [d] positive: CPython rounds the exact quotient
    once, to the nearest binary64 (53-bit mantissa, ties to even, exponent
    no lower than that of the subnormals). Quotients beyond the binary64
    range, where CPython raises [OverflowError], do not arise from a
    [timedelta]. *)
Definition int_truediv (n d : Z) : pyfloat :=
  if n =? 0 then {| fmant := 0; fexpo := 0 |}
  else
    let e := Z.max (binade (Z.abs n) d) (-1074) in
    let '(a, b) := scaled (Z.abs n) d e in
    {| fmant := Z.sgn n * rne_div a b; fexpo := e |}.

(** [int(x)] for a float: truncation toward zero. *)
Definition int_of_float (x : pyfloat) : Z :=
  if 0 <=? fexpo x then fmant x * 2 ^ fexpo x
  else Z.quot (fmant x) (2 ^ (- fexpo x)).

(** [timedelta.total_seconds()]:
    [(days * 86400 + seconds) * 10**6 + microseconds) / 10**6]. *)
Definition total_microseconds (td : timedelta) : Z :=
  (days td * 86400 + seconds td) * 1000000 + microseconds td.

Definition total_seconds (td : timedelta) : pyfloat :=
  int_truediv (total_microseconds td) 1000000.

(** The value of a [pyfloat] as Stdlib's [spec_float], to compare
    [int_truediv] with [SFdiv] at binary64 ([prec = 53], [emax = 1024]). *)
Definition to_spec_float (x : pyfloat) : spec_float :=
  match fmant x with
  | Z0 => S754_zero false
  | Zpos m => S754_finite false m (fexpo x)
  | Zneg m => S754_finite true m (fexpo x)
  end.

Definition SFdiv_int (n d : positive) : spec_float :=
  SFdiv 53 1024 (S754_finite false n 0) (S754_finite false d 0).


(** ** The helpers of [util.py] the formatters call

    [util.py] is not among the sources. Its three pure helpers are an
    interface here; [util_model] below instantiates it from the spec. *)
Class Util : Type := {
  iso_time_format : datetime -> string;
  epoch_nano_second : datetime -> Z;
  parse_int : string -> Z -> Z
}.

(** ** Correlation-id policy

    [RequestUtil.get_correlation_id] and the header search behind it live
    in [util.py], which is not among the sources. *)

(** Modelled from the spec: a header value is "present, non-empty". An
    adapter "must return the defined empty-value sentinel rather than
    failing when a fact is unavailable", so a value is present when it is
    neither the sentinel nor empty. *)
Definition present_value (v : string) : bool :=
  str_truthy v && negb (String.eqb v EMPTY_VALUE).

Section CorrelationId.
Context {Req Resp : Type}.

(** Modelled from the spec: "search a configured ordered list of header
    names [...] on the request; return the first present, non-empty
    value". *)
Fixpoint first_header_value (ra : RequestAdapter Req) (request : Req)
    (headers : list string) : result (option string) :=
  match headers with
  | [] => Ok None
  | h :: hs =>
      v ← get_http_header ra request h EMPTY_VALUE;
      if present_value v then Ok (Some v) else first_header_value ra request hs
  end.

(** Modelled from the spec: "If none found and a 'create if missing' flag
    is enabled, mint a new identifier using a pluggable generator and, if
    the adapter supports mutating the request, store it back [...]. If
    creation is disabled and none found, return a defined empty-value
    sentinel." The state is the number of identifiers the generator has
    produced; the request after an optional store-back is returned with
    the id. *)
Definition resolve (ra : RequestAdapter Req) (g : globals Req Resp) (request : Req)
  : py nat (string * Req) :=
  found ← lift (first_header_value ra request (CORRELATION_ID_HEADERS g));
  match found with
  | Some v => mret (v, request)
  | None =>
      if CREATE_CORRELATION_ID_IF_NOT_EXISTS g then
        n ← get_state;
        _ ← modify S;
        let correlation_id := CORRELATION_ID_GENERATOR g n in
        mret (correlation_id, set_correlation_id ra request correlation_id)
      else mret (EMPTY_VALUE, request)
  end.

(** Modelled from the spec: section 4.7. With a request, delegate to the
    policy; without one, the active framework must support the ambient
    request lookup, "else fails with a usage error"; outside a request
    context the sentinel is returned. [ambient] is the framework's current
    request, if any. *)
Definition get_correlation_id (ru : RequestUtil Req Resp)
    (g : globals Req Resp) (ambient : option Req) (request : option Req)
  : py nat (string * option Req) :=
  let ra := request_adapter ru in
  match request with
  | Some r => '(cid, r') ← resolve ra g r; mret (cid, Some r')
  | None =>
      if support_global_request_object ra then
        match ambient with
        | Some r => '(cid, r') ← resolve ra g r; mret (cid, Some r')
        | None => mret (EMPTY_VALUE, None)
        end
      else raise (UsageError "framework does not support a global request object")
  end.

End CorrelationId.

(** ** [RequestInfo] and the formatters *)

(** Reading an attribute that was never assigned raises [AttributeError]. *)
Definition getattr {A} (owner : string) (attr : string) (o : option A) : result A :=
  match o with
  | Some a => Ok a
  | None =>
      Raise (AttributeError ("'" +:+ owner +:+ "' object has no attribute '" +:+ attr +:+ "'"))
  end.

(** A computation on the generator's counter, run inside a larger state. *)
Definition with_counter {X A} (m : py nat A) : py (nat * X) A :=
  fun s => let '(n', r) := m (fst s) in ((n', snd s), r).

Section Formatters.
Context {U : Util} {Req Resp : Type}.

(** The attributes of a [RequestInfo]; those that only
    [update_response_status] assigns are [None] until it does. *)
Record RequestInfo : Type := {
  request_start : datetime;
  request : Req;
  request_received_at : string;
  response_time_ms : option Z;
  response_status : option pyval;
  response_size_b : option pyval;
  response_content_type : option pyval;
  response_sent_at : option string
}.

(** [RequestInfo(request)] at the clock reading [utcnow]. *)
Definition RequestInfo_new (utcnow : datetime) (request : Req) : RequestInfo := {|
  request_start := utcnow;
  request := request;
  request_received_at := iso_time_format utcnow;
  response_time_ms := None;
  response_status := None;
  response_size_b := None;
  response_content_type := None;
  response_sent_at := None
|}.

Definition set_request (r : Req) (self : RequestInfo) : RequestInfo := {|
  request_start := request_start self;
  request := r;
  request_received_at := request_received_at self;
  response_time_ms := response_time_ms self;
  response_status := response_status self;
  response_size_b := response_size_b self;
  response_content_type := response_content_type self;
  response_sent_at := response_sent_at self
|}.

Definition set_response_time_ms (v : Z) (self : RequestInfo) : RequestInfo := {|
  request_start := request_start self;
  request := request self;
  request_received_at := request_received_at self;
  response_time_ms := Some v;
  response_status := response_status self;
  response_size_b := response_size_b self;
  response_content_type := response_content_type self;
  response_sent_at := response_sent_at self
|}.

Definition set_response_status (v : pyval) (self : RequestInfo) : RequestInfo := {|
  request_start := request_start self;
  request := request self;
  request_received_at := request_received_at self;
  response_time_ms := response_time_ms self;
  response_status := Some v;
  response_size_b := response_size_b self;
  response_content_type := response_content_type self;
  response_sent_at := response_sent_at self
|}.

Definition set_response_size_b (v : pyval) (self : RequestInfo) : RequestInfo := {|
  request_start := request_start self;
  request := request self;
  request_received_at := request_received_at self;
  response_time_ms := response_time_ms self;
  response_status := response_status self;
  response_size_b := Some v;
  response_content_type := response_content_type self;
  response_sent_at := response_sent_at self
|}.

Definition set_response_content_type (v : pyval) (self : RequestInfo) : RequestInfo := {|
  request_start := request_start self;
  request := request self;
  request_received_at := request_received_at self;
  response_time_ms := response_time_ms self;
  response_status := response_status self;
  response_size_b := response_size_b self;
  response_content_type := Some v;
  response_sent_at := response_sent_at self
|}.

Definition set_response_sent_at (v : string) (self : RequestInfo) : RequestInfo := {|
  request_start := request_start self;
  request := request self;
  request_received_at := request_received_at self;
  response_time_ms := response_time_ms self;
  response_status := response_status self;
  response_size_b := response_size_b self;
  response_content_type := response_content_type self;
  response_sent_at := Some v
|}.

(** [int(time_delta.total_seconds()) * 1000 + int(time_delta.microseconds / 1000)] *)
Definition elapsed_ms (time_delta : timedelta) : Z :=
  int_of_float (total_seconds time_delta) * 1000
  + int_of_float (int_truediv (microseconds time_delta) 1000).

(** [RequestInfo.update_response_status(response)] at the clock reading
    [utcnow]; the state is [self]. *)
Definition update_response_status (g : globals Req Resp) (utcnow : datetime)
    (response : Resp) : py RequestInfo unit :=
  request_util ← lift (getattr "NoneType" "response_adapter" (_request_util g));
  let response_adapter := response_adapter request_util in
  self ← get_state;
  let time_delta := datetime_sub utcnow (request_start self) in
  _ ← modify (set_response_time_ms (elapsed_ms time_delta));
  status ← lift (get_status_code response_adapter response);
  _ ← modify (set_response_status status);
  size ← lift (get_response_size response_adapter response);
  _ ← modify (set_response_size_b size);
  content_type ← lift (get_content_type response_adapter response);
  _ ← modify (set_response_content_type content_type);
  modify (set_response_sent_at (iso_time_format utcnow)).

(** What the formatters read of a [logging.LogRecord]. [getMessage] is the
    rendered message; [props] and [request_info] are attributes a caller
    may attach through [extra]; [exc_info], when set, holds the lines
    [traceback.format_exception] renders for it. *)
Record LogRecord : Type := {
  name : string;
  threadName : string;
  levelname : string;
  lineno : Z;
  module : string;
  getMessage : string;
  filename : string;
  props : option pydict;
  exc_info : option (list string);
  exc_text : option string;
  request_info : option RequestInfo
}.

Definition set_request_info (ri : RequestInfo) (record : LogRecord) : LogRecord := {|
  name := name record;
  threadName := threadName record;
  levelname := levelname record;
  lineno := lineno record;
  module := module record;
  getMessage := getMessage record;
  filename := filename record;
  props := props record;
  exc_info := exc_info record;
  exc_text := exc_text record;
  request_info := Some ri
|}.

(** [''.join(traceback.format_exception( *exc_info))] *)
Definition format_exception (lines : list string) : string :=
  fold_right String.append "" lines.

Definition opt_str (o : option string) : pyval :=
  match o with Some s => PStr s | None => PNone end.

(** [get_exc_fields], the same in both log formatters. *)
Definition get_exc_fields (record : LogRecord) : pydict :=
  let exc_info :=
    match exc_info record with
    | Some lines => PStr (format_exception lines)
    | None => opt_str (exc_text record)
    end in
  [("exc_info", exc_info); ("filename", PStr (filename record))].

(** [record.exc_info or record.exc_text] as a truth value. *)
Definition has_exc (record : LogRecord) : bool :=
  match exc_info record, exc_text record with
  | Some _, _ => true
  | None, Some text => str_truthy text
  | None, None => false
  end.

(** The two updates that follow the dict literal in both log formatters. *)
Definition merge_props_and_exc (record : LogRecord) (json_log_object : pydict) : pydict :=
  let json_log_object :=
    match props record with
    | Some p => dict_update json_log_object p
    | None => json_log_object
    end in
  if has_exc record then dict_update json_log_object (get_exc_fields record)
  else json_log_object.

(** The dict literal of [JSONLogFormatter.format]. *)
Definition JSONLogFormatter_fixed (utcnow : datetime) (record : LogRecord) : pydict :=
  [("type", PStr "log");
   ("written_at", PStr (iso_time_format utcnow));
   ("written_ts", PInt (epoch_nano_second utcnow));
   ("component_id", PStr COMPONENT_ID);
   ("component_name", PStr COMPONENT_NAME);
   ("component_instance", PInt COMPONENT_INSTANCE_INDEX);
   ("logger", PStr (name record));
   ("thread", PStr (threadName record));
   ("level", PStr (levelname record));
   ("line_no", PInt (lineno record));
   ("module", PStr (module record));
   ("msg", PStr (getMessage record))].

(** [json_log_object] of [JSONLogFormatter.format] as handed to the
    serializer; [utcnow] is the clock reading of the call. *)
Definition JSONLogFormatter_object (utcnow : datetime) (record : LogRecord) : pydict :=
  merge_props_and_exc record (JSONLogFormatter_fixed utcnow record).

Definition JSONLogFormatter_format (g : globals Req Resp) (utcnow : datetime)
    (record : LogRecord) : string :=
  JSON_SERIALIZER g (JSONLogFormatter_object utcnow record).

(** The dict literal of [JSONLogWebFormatter.format]. *)
Definition JSONLogWebFormatter_fixed (utcnow : datetime) (record : LogRecord)
    (correlation_id : string) : pydict :=
  [("type", PStr "log");
   ("written_at", PStr (iso_time_format utcnow));
   ("written_ts", PInt (epoch_nano_second utcnow));
   ("component_id", PStr COMPONENT_ID);
   ("component_name", PStr COMPONENT_NAME);
   ("component_instance", PInt COMPONENT_INSTANCE_INDEX);
   ("logger", PStr (name record));
   ("thread", PStr (threadName record));
   ("level", PStr (levelname record));
   ("module", PStr (module record));
   ("line_no", PInt (lineno record));
   ("correlation_id", PStr correlation_id);
   ("msg", PStr (getMessage record))].

(** [json_log_object] of [JSONLogWebFormatter.format]. The state is the
    generator's counter and the framework's ambient request, which
    [get_correlation_id()] may read and store an id into. *)
Definition JSONLogWebFormatter_object (g : globals Req Resp) (utcnow : datetime)
    (record : LogRecord) : py (nat * option Req) pydict :=
  request_util ← lift (getattr "NoneType" "get_correlation_id" (_request_util g));
  s ← get_state;
  '(correlation_id, ambient) ← with_counter (get_correlation_id request_util g (snd s) None);
  _ ← modify (fun s => (fst s, match ambient with Some r => Some r | None => snd s end));
  mret (merge_props_and_exc record (JSONLogWebFormatter_fixed utcnow record correlation_id)).

Definition JSONLogWebFormatter_format (g : globals Req Resp) (utcnow : datetime)
    (record : LogRecord) : py (nat * option Req) string :=
  json_log_object ← JSONLogWebFormatter_object g utcnow record;
  mret (JSON_SERIALIZER g json_log_object).

(** [json_log_object] of [JSONRequestLogFormatter.format]: the values of
    the dict literal are evaluated in the order written. The state is the
    generator's counter and the record, whose request
    [get_correlation_id(request)] may store an id into. *)
Definition JSONRequestLogFormatter_object (g : globals Req Resp) (utcnow : datetime)
  : py (nat * LogRecord) pydict :=
  s ← get_state;
  let record := snd s in
  info ← lift (getattr "LogRecord" "request_info" (request_info record));
  let request := request info in
  request_util ← lift (getattr "NoneType" "request_adapter" (_request_util g));
  let request_adapter := request_adapter request_util in
  length ← lift (get_content_length request_adapter request);
  '(correlation_id, stored) ←
     with_counter (get_correlation_id request_util g None (Some request));
  let request := match stored with Some r => r | None => request end in
  _ ← modify (fun s => (fst s, set_request_info (set_request request info) (snd s)));
  remote_user ← lift (get_remote_user request_adapter request);
  path ← lift (get_path request_adapter request);
  referer ← lift (get_http_header request_adapter request "referer" EMPTY_VALUE);
  x_forwarded_for ←
    lift (get_http_header request_adapter request "x-forwarded-for" EMPTY_VALUE);
  protocol ← lift (get_protocol request_adapter request);
  method ← lift (get_method request_adapter request);
  remote_ip ← lift (get_remote_ip request_adapter request);
  remote_host ← lift (get_remote_ip request_adapter request);
  remote_port ← lift (get_remote_port request_adapter request);
  response_time_ms ← lift (getattr "RequestInfo" "response_time_ms" (response_time_ms info));
  response_status ← lift (getattr "RequestInfo" "response_status" (response_status info));
  response_size_b ← lift (getattr "RequestInfo" "response_size_b" (response_size_b info));
  response_content_type ←
    lift (getattr "RequestInfo" "response_content_type" (response_content_type info));
  response_sent_at ← lift (getattr "RequestInfo" "response_sent_at" (response_sent_at info));
  mret [("type", PStr "request");
        ("written_at", PStr (iso_time_format utcnow));
        ("written_ts", PInt (epoch_nano_second utcnow));
        ("component_id", PStr COMPONENT_ID);
        ("component_name", PStr COMPONENT_NAME);
        ("component_instance", PInt COMPONENT_INSTANCE_INDEX);
        ("correlation_id", PStr correlation_id);
        ("remote_user", PStr remote_user);
        ("request", PStr path);
        ("referer", PStr referer);
        ("x_forwarded_for", PStr x_forwarded_for);
        ("protocol", PStr protocol);
        ("method", PStr method);
        ("remote_ip", PStr remote_ip);
        ("request_size_b", PInt (parse_int length (-1)));
        ("remote_host", PStr remote_host);
        ("remote_port", PStr remote_port);
        ("request_received_at", PStr (request_received_at info));
        ("response_time_ms", PInt response_time_ms);
        ("response_status", response_status);
        ("response_size_b", response_size_b);
        ("response_content_type", response_content_type);
        ("response_sent_at", PStr response_sent_at)].

Definition JSONRequestLogFormatter_format (g : globals Req Resp) (utcnow : datetime)
  : py (nat * LogRecord) string :=
  json_log_object ← JSONRequestLogFormatter_object g utcnow;
  mret (JSON_SERIALIZER g json_log_object).

End Formatters.
Arguments RequestInfo : clear implicits.
Arguments LogRecord : clear implicits.

(** ** Adapters that answer

    Every operation the access-log formatter calls on the request adapter
    returns, on every request. *)
Definition request_adapter_total {Req : Type} (ra : RequestAdapter Req) : Prop :=
  forall r : Req,
    (forall h dflt, is_ok (get_http_header ra r h dflt) = true)
    /\ is_ok (get_remote_user ra r) = true
    /\ is_ok (get_protocol ra r) = true
    /\ is_ok (get_path ra r) = true
    /\ is_ok (get_content_length ra r) = true
    /\ is_ok (get_method ra r) = true
    /\ is_ok (get_remote_ip ra r) = true
    /\ is_ok (get_remote_port ra r) = true.

(** ** Stating the formatter properties *)

(** A JSON object without its two timestamp fields. *)
Definition without_timestamps (d : pydict) : pydict :=
  dict_remove "written_at" (dict_remove "written_ts" d).

(** ** A model of the [util.py] helpers *)

(** [n] in decimal on [w] digits, zero-padded. *)
Fixpoint pad_digits (w : nat) (n : Z) : string :=
  match w with
  | O => ""
  | S w' => pad_digits w' (n / 10) +:+ String (ascii_of_N (48 + Z.to_N (n mod 10))) ""
  end.

(** Modelled from the spec: [util.iso_time_format], "written_at (ISO-8601
    UTC)", rendered with millisecond precision. *)
Definition iso_time_format_model (dt : datetime) : string :=
  pad_digits 4 (year dt) +:+ "-" +:+ pad_digits 2 (month dt) +:+ "-"
  +:+ pad_digits 2 (day dt) +:+ "T" +:+ pad_digits 2 (hour dt) +:+ ":"
  +:+ pad_digits 2 (minute dt) +:+ ":" +:+ pad_digits 2 (second dt) +:+ "."
  +:+ pad_digits 3 (microsecond dt / 1000) +:+ "Z".

(** Modelled from the spec: [util.epoch_nano_second], "written_ts
    (nanosecond epoch)": nanoseconds since 1970-01-01T00:00:00. *)
Definition epoch_nano_second_model (dt : datetime) : Z :=
  ((toordinal dt - ymd2ord 1970 1 1) * 86400
   + hour dt * 3600 + minute dt * 60 + second dt) * 1000000000
  + microsecond dt * 1000.

Fixpoint parse_digits (s : string) (acc : Z) : option Z :=
  match s with
  | EmptyString => Some acc
  | String c s' =>
      let n := Z.of_N (N_of_ascii c) in
      if (48 <=? n) && (n <=? 57) then parse_digits s' (acc * 10 + (n - 48)) else None
  end.

(** Modelled from the spec: [util.parse_int], "request_size (parsed to
    integer, -1 if unparseable)", on unsigned decimal strings. *)
Definition parse_int_model (s : string) (dflt : Z) : Z :=
  match s with
  | EmptyString => dflt
  | _ => match parse_digits s 0 with Some n => n | None => dflt end
  end.

#[global] Instance util_model : Util := {|
  iso_time_format := iso_time_format_model;
  epoch_nano_second := epoch_nano_second_model;
  parse_int := parse_int_model
|}.

(** ** Concrete inputs used by the examples and witnesses below *)

(** A response that carries no header and whose [tell()] raises [OSError]:
    a streaming response whose [Content-Type] was deleted. *)
Definition response_without_content_type : Django.HttpResponse := {|
  Django.status_code := 304;
  Django.header := fun _ => None;
  Django.tell := Raise OSError
|}.

(** The Django classes as [json_logging/__init__.py] registers them. *)
Definition DjangoRequestAdapter_class : pyclass (RequestAdapter Django.HttpRequest) := {|
  cls_name := "DjangoRequestAdapter";
  cls_mro := ["DjangoRequestAdapter"; "RequestAdapter"; "object"];
  cls_call := Ok Django.request_adapter
|}.

Definition DjangoResponseAdapter_class : pyclass (ResponseAdapter Django.HttpResponse) := {|
  cls_name := "DjangoResponseAdapter";
  cls_mro := ["DjangoResponseAdapter"; "ResponseAdapter"; "object"];
  cls_call := Ok Django.response_adapter
|}.

Definition DjangoAppRequestInstrumentationConfigurator_class : pyclass unit := {|
  cls_name := "DjangoAppRequestInstrumentationConfigurator";
  cls_mro := ["DjangoAppRequestInstrumentationConfigurator";
              "AppRequestInstrumentationConfigurator"; "object"];
  cls_call := Ok tt
|}.

Definition register_django
  : py (globals Django.HttpRequest Django.HttpResponse) unit :=
  register_framework_support "django" None
    DjangoAppRequestInstrumentationConfigurator_class
    DjangoRequestAdapter_class DjangoResponseAdapter_class.

(** A generator and a serializer to run the examples with: the [n]-th id
    is ["id-"] followed by [n] on four digits; the serializer renders an
    object as [json.dumps] does when no string needs escaping. *)
Definition example_uuid1 (n : nat) : string := "id-" +:+ pad_digits 4 (Z.of_nat n).

Definition dquote : string := String (ascii_of_nat 34) "".

Definition dumps_value (v : pyval) : string :=
  match v with
  | PNone => "null"
  | PBool true => "true"
  | PBool false => "false"
  | PInt z => pretty z
  | PStr s => dquote +:+ s +:+ dquote
  end.

Fixpoint dumps_items (d : pydict) : string :=
  match d with
  | [] => ""
  | (k, v) :: d' =>
      dquote +:+ k +:+ dquote +:+ ": " +:+ dumps_value v
      +:+ match d' with [] => "" | _ => ", " +:+ dumps_items d' end
  end.

Definition example_dumps (d : pydict) : string := "{" +:+ dumps_items d +:+ "}".

(** The globals after the module body has registered Django, and after
    [init('django')]. *)
Definition g_registered : globals Django.HttpRequest Django.HttpResponse :=
  fst (register_django (initial_globals true example_uuid1 example_dumps)).

Definition g_django : globals Django.HttpRequest Django.HttpResponse :=
  fst (init (Some "django") None g_registered).

(** A Django request carrying [X-Request-ID], a 200 response of 1234
    bytes, and clock readings 50 ms and a second apart. *)
Definition example_request : Django.HttpRequest := {|
  Django.META := {[ "HTTP_X_REQUEST_ID" := "req-42"; "CONTENT_LENGTH" := "512";
                    "SERVER_PROTOCOL" := "HTTP/1.1"; "REMOTE_ADDR" := "10.0.0.7" ]};
  Django.path := "/orders";
  Django.method := "GET";
  Django.user := None
|}.

Definition example_response : Django.HttpResponse := {|
  Django.status_code := 200;
  Django.header := fun h =>
    if String.eqb h "Content-Type" then Some "application/json" else None;
  Django.tell := Ok 1234
|}.

Definition t_arrival : datetime :=
  {| year := 2000; month := 1; day := 1; hour := 0; minute := 0; second := 0;
     microsecond := 0 |}.

Definition t_50ms : datetime :=
  {| year := 2000; month := 1; day := 1; hour := 0; minute := 0; second := 0;
     microsecond := 50000 |}.

Definition t_1s : datetime :=
  {| year := 2000; month := 1; day := 1; hour := 0; minute := 0; second := 1;
     microsecond := 0 |}.

(** A completion 2^34 seconds and more after [t_arrival]. *)
Definition t_far : datetime :=
  {| year := 2544; month := 6; day := 1; hour := 0; minute := 0; second := 0;
     microsecond := 999999 |}.

(** A framework whose adapter has a global request object: the Django
    operations on a request that is also reachable as the ambient one. *)
Definition ambient_request_adapter : RequestAdapter Django.HttpRequest := {|
  support_global_request_object := true;
  get_http_header := Django.DjangoRequestAdapter.get_http_header;
  get_remote_user := Django.DjangoRequestAdapter.get_remote_user;
  is_in_request_context := Django.DjangoRequestAdapter.is_in_request_context;
  set_correlation_id := Django.DjangoRequestAdapter.set_correlation_id;
  get_correlation_id_in_request_context :=
    Django.DjangoRequestAdapter.get_correlation_id_in_request_context;
  get_protocol := Django.DjangoRequestAdapter.get_protocol;
  get_path := Django.DjangoRequestAdapter.get_path;
  get_content_length := Django.DjangoRequestAdapter.get_content_length;
  get_method := Django.DjangoRequestAdapter.get_method;
  get_remote_ip := Django.DjangoRequestAdapter.get_remote_ip;
  get_remote_port := Django.DjangoRequestAdapter.get_remote_port
|}.

Definition AmbientRequestAdapter_class : pyclass (RequestAdapter Django.HttpRequest) := {|
  cls_name := "AmbientRequestAdapter";
  cls_mro := ["AmbientRequestAdapter"; "RequestAdapter"; "object"];
  cls_call := Ok ambient_request_adapter
|}.

(** The globals after that framework is registered and selected. *)
Definition g_ambient : globals Django.HttpRequest Django.HttpResponse :=
  fst (init (Some "ambient") None
         (fst (register_framework_support "ambient" None
                 DjangoAppRequestInstrumentationConfigurator_class
                 AmbientRequestAdapter_class DjangoResponseAdapter_class g_registered))).

(** A log record whose [props] shadow the fixed field [level] and add
    [tenant]. *)
Definition example_record : LogRecord Django.HttpRequest := {|
  name := "orders";
  threadName := "MainThread";
  levelname := "INFO";
  lineno := 42;
  module := "views";
  getMessage := "order placed";
  filename := "views.py";
  props := Some [("level", PStr "AUDIT"); ("tenant", PStr "acme")];
  exc_info := None;
  exc_text := None;
  request_info := None
|}.

(** The context of [example_request], as created at [t_arrival] and as
    finalized 50 ms later, and the records the middleware logs with them. *)
Definition info_open : RequestInfo Django.HttpRequest :=
  RequestInfo_new t_arrival example_request.

Definition info_closed : RequestInfo Django.HttpRequest :=
  fst (update_response_status g_django t_50ms example_response info_open).

Definition access_record (info : RequestInfo Django.HttpRequest)
  : LogRecord Django.HttpRequest := {|
  name := "json_logging.django";
  threadName := "MainThread";
  levelname := "INFO";
  lineno := 118;
  module := "__init__";
  getMessage := "";
  filename := "__init__.py";
  props := None;
  exc_info := None;
  exc_text := None;
  request_info := Some info
|}.

(** ** Proof automation *)

(** Unfolds the sequencing of [py]. *)
Ltac py_unfold :=
  unfold mbind, py_bind, mret, py_ret, lift, raise, get_state, modify, emit.

(** The binding [register_django] stores. *)
Definition django_binding : FrameworkBinding Django.HttpRequest Django.HttpResponse := {|
  app_configurator := None;
  app_request_instrumentation_configurator :=
    DjangoAppRequestInstrumentationConfigurator_class;
  request_adapter_class := DjangoRequestAdapter_class;
  response_adapter_class := DjangoResponseAdapter_class
|}.

(** The [RequestUtil] that [init('django')] builds. *)
Definition django_request_util : RequestUtil Django.HttpRequest Django.HttpResponse := {|
  request_adapter := Django.request_adapter;
  response_adapter := Django.response_adapter
|}.

(** A second set of Django classes, as a test override would register. *)
Definition OverrideRequestAdapter_class : pyclass (RequestAdapter Django.HttpRequest) := {|
  cls_name := "OverrideRequestAdapter";
  cls_mro := ["OverrideRequestAdapter"; "DjangoRequestAdapter"; "RequestAdapter"; "object"];
  cls_call := Ok Django.request_adapter
|}.

(** ** More of [json_logging/__init__.py]: request instrumentation *)

Section RequestInstrument.
Context {Req Resp App : Type}.

(** [init_request_instrument(app)]. [config cls app] stands for
    [cls().config(app)] followed by the read of
    [configurator.request_logger.handlers]: it raises, or gives the
    handlers of the framework's request logger. The result lists the
    formatter each handler is given. ([_current_framework] is [None] or a
    dict, so the comparison with ['-'] in the source's guard never holds.) *)
Definition init_request_instrument (config : pyclass unit -> App -> result (list string))
    (app : App) (g : globals Req Resp) : result (list (string * formatter_class)) :=
  match _current_framework g with
  | None =>
      Raise (RuntimeError "please init the logging first, call init(framework_name) first")
  | Some current =>
      handlers ← config (app_request_instrumentation_configurator current) app;
      Ok (map (fun handler => (handler, JSONRequestLogFormatter)) handlers)
  end.

(** The globals a process can reach: the module body's, then any calls of
    [register_framework_support] and [init]. *)
Inductive reachable : globals Req Resp -> Prop :=
| reachable_initial (enable_json_logging : bool) (uuid1 : nat -> string)
    (dumps : pydict -> string) :
    reachable (initial_globals enable_json_logging uuid1 dumps)
| reachable_register (g : globals Req Resp) (name : string)
    (ac : option (pyclass FrameworkConfigurator)) (arc : pyclass unit)
    (rq : pyclass (RequestAdapter Req)) (rs : pyclass (ResponseAdapter Resp)) :
    reachable g -> reachable (fst (register_framework_support name ac arc rq rs g))
| reachable_init (g : globals Req Resp) (framework_name : option string)
    (custom_formatter : option (pyclass unit)) :
    reachable g -> reachable (fst (init framework_name custom_formatter g)).

(** The request util is set only once a framework is active, and it
    holds the instances of the active framework's adapter classes. *)
Definition active_consistent (g : globals Req Resp) : Prop :=
  match _request_util g with
  | Some ru =>
      exists b,
        _current_framework g = Some b
        /\ RequestUtil_new (request_adapter_class b) (response_adapter_class b) = Ok ru
  | None => True
  end.

(** The binding's classes can be brought up: the two adapter classes
    instantiate and, when JSON logging is enabled and the binding has an
    app configurator, that class instantiates and its [config()] returns. *)
Definition binding_starts (enable_json_logging : bool) (b : FrameworkBinding Req Resp)
    (ru : RequestUtil Req Resp) : Prop :=
  RequestUtil_new (request_adapter_class b) (response_adapter_class b) = Ok ru
  /\ (enable_json_logging = true ->
      match app_configurator b with
      | Some c => exists configurator, cls_call c = Ok configurator
                                       /\ config configurator = Ok tt
      | None => True
      end).

End RequestInstrument.

(** ** The Django middleware ([framework/django/__init__.py]) *)

(** A [Middleware] object: [__init__] assigns [get_response] only;
    [request_logger] is [None] while no such attribute exists on the
    object. *)
Record Middleware : Type := {
  get_response : Django.HttpRequest -> result Django.HttpResponse;
  request_logger : option string
}.

(** [Middleware(get_response)] *)
Definition Middleware_new (get_response : Django.HttpRequest -> result Django.HttpResponse)
  : Middleware :=
  {| get_response := get_response; request_logger := None |}.

Section MiddlewareCall.
Context {U : Util}.

(** [Middleware.__call__(request)], with the clock readings [utcnow0] (in
    [RequestInfo(request)]) and [utcnow1] (in [update_response_status]).
    The state is the [request_info] attribute of the request and the
    contexts handed to the request logger. *)
Definition Middleware_call (g : globals Django.HttpRequest Django.HttpResponse)
    (utcnow0 utcnow1 : datetime) (self : Middleware) (request : Django.HttpRequest)
  : py (option (RequestInfo Django.HttpRequest) * list (RequestInfo Django.HttpRequest))
       Django.HttpResponse :=
  let request_info := RequestInfo_new utcnow0 request in
  _ ← modify (fun s => (Some request_info, snd s));
  response ← lift (get_response self request);
  let updated := update_response_status g utcnow1 response request_info in
  _ ← modify (fun s => (Some (fst updated), snd s));
  _ ← lift (snd updated);
  _ ← lift (getattr "Middleware" "request_logger" (request_logger self));
  _ ← modify (fun s => (fst s, (snd s ++ [fst updated])%list));
  mret response.

End MiddlewareCall.

(** ** Further concrete inputs *)

(** A class that inherits from none of the adapter classes, and one that
    is no [logging.Formatter]. *)
Definition NotAnAdapter_class : pyclass (RequestAdapter Django.HttpRequest) := {|
  cls_name := "dict";
  cls_mro := ["dict"; "object"];
  cls_call := Ok Django.request_adapter
|}.

Definition NotAFormatter_class : pyclass unit := {|
  cls_name := "dict";
  cls_mro := ["dict"; "object"];
  cls_call := Ok tt
|}.

(** The module globals with JSON logging switched off and Django
    registered. *)
Definition g_off : globals Django.HttpRequest Django.HttpResponse :=
  fst (register_django (initial_globals false example_uuid1 example_dumps)).

(** A request adapter class whose constructor raises. *)
Definition BrokenRequestAdapter_class : pyclass (RequestAdapter Django.HttpRequest) := {|
  cls_name := "BrokenRequestAdapter";
  cls_mro := ["BrokenRequestAdapter"; "RequestAdapter"; "object"];
  cls_call := Raise (ValueError "no backend")
|}.

(** The globals with Django and that class registered, the latter under
    the name [broken]. *)
Definition g_broken : globals Django.HttpRequest Django.HttpResponse :=
  fst (register_framework_support "broken" None
         DjangoAppRequestInstrumentationConfigurator_class
         BrokenRequestAdapter_class DjangoResponseAdapter_class g_registered).

(** A configurator whose request logger has one handler. *)
Definition example_config (_ : pyclass unit) (_ : unit) : result (list string) :=
  Ok ["stdout"].

(** A 200 response that declares its length. *)
Definition example_response_sized : Django.HttpResponse := {|
  Django.status_code := 200;
  Django.header := fun h =>
    if String.eqb h "Content-Type" then Some "application/json"
    else if String.eqb h "Content-Length" then Some "1234"
    else None;
  Django.tell := Ok 1234
|}.

(** A record logged with exception info whose [props] try to set
    [filename]. *)
Definition example_record_exc : LogRecord Django.HttpRequest := {|
  name := "orders";
  threadName := "MainThread";
  levelname := "ERROR";
  lineno := 57;
  module := "views";
  getMessage := "order failed";
  filename := "views.py";
  props := Some [("filename", PStr "other.py"); ("tenant", PStr "acme")];
  exc_info := Some ["Traceback (most recent call last):"; " ..."; "ValueError: bad order"];
  exc_text := Some "cached";
  request_info := None
|}.

(** ** What the merge of [props] after the fixed fields means *)

(** [obj] is the dict literal [fixed] with [props] merged in afterwards:
    the keys of [fixed] come first, in their order; under each of them
    [obj] holds the value of [props] when [props] has the key and the value
    of [fixed] otherwise; and every key of [props] other than the two
    exception fields is in [obj] with the value [props] gives. *)
Definition props_merged_after (props fixed obj : pydict) : Prop :=
  (exists rest, dict_keys obj = (dict_keys fixed ++ rest)%list)
  /\ (forall k, In k (dict_keys fixed) ->
        dict_get k obj
        = match dict_get k props with Some v => Some v | None => dict_get k fixed end)
  /\ (forall k v, dict_get k props = Some v -> k <> "exc_info" -> k <> "filename" ->
        dict_get k obj = Some v).

(** ** Proof automation, further *)

(** Splits on the next outcome, option or test the goal branches on. *)
Ltac destruct_scrutinee :=
  match goal with
  | |- context [match ?x with Ok _ => _ | Raise _ => _ end] => destruct x eqn:?
  | |- context [match ?x with Some _ => _ | None => _ end] => destruct x eqn:?
  | |- context [if ?x then _ else _] => destruct x eqn:?
  end.

Ltac py_cases := repeat (simpl; destruct_scrutinee); simpl.
(** * Properties *)

(** ** The models of the library pieces, on examples *)

Example int_truediv_SFdiv_50ms :
  to_spec_float (int_truediv 50000 1000000) = SFdiv_int 50000 1000000.
Proof. vm_compute. reflexivity. Qed.

Example int_truediv_SFdiv_ms :
  to_spec_float (int_truediv 999999 1000) = SFdiv_int 999999 1000.
Proof. vm_compute. reflexivity. Qed.

Example int_truediv_SFdiv_large :
  to_spec_float (int_truediv 17179869183999999 1000000)
  = SFdiv_int 17179869183999999 1000000.
Proof. vm_compute. reflexivity. Qed.

Example iso_time_format_model_example :
  iso_time_format_model
    {| year := 2020; month := 2; day := 29; hour := 13; minute := 5; second := 9;
       microsecond := 50123 |}
  = "2020-02-29T13:05:09.050Z".
Proof. reflexivity. Qed.

Example epoch_nano_second_model_example :
  epoch_nano_second_model
    {| year := 2000; month := 1; day := 1; hour := 0; minute := 0; second := 0;
       microsecond := 1 |}
  = 946684800000001000.
Proof. reflexivity. Qed.

Example parse_int_model_examples :
  parse_int_model "512" (-1) = 512 /\ parse_int_model "abc" (-1) = -1.
Proof. split; reflexivity. Qed.

(** ** Strings *)

Lemma ascii_lower_idempotent (c : ascii) : ascii_lower (ascii_lower c) = ascii_lower c.
Proof. destruct c as [[] [] [] [] [] [] [] []]; reflexivity. Qed.

Lemma lower_idempotent (s : string) : lower (lower s) = lower s.
Proof.
  unfold lower. induction s as [|c s IH]; simpl; [reflexivity|].
  rewrite ascii_lower_idempotent, IH. reflexivity.
Qed.

Lemma str_truthy_lower (s : string) : str_truthy (lower s) = str_truthy s.
Proof. destruct s; reflexivity. Qed.

Lemma header_name_converted_correlation :
  Django.header_name_converted "X-Correlation-ID" = "HTTP_X_CORRELATION_ID".
Proof. reflexivity. Qed.

(** ** The Django request adapter *)

(** C10: after [set_correlation_id(r, v)], both
    [get_correlation_id_in_request_context(r)] and
    [get_http_header(r, "X-Correlation-ID")] (with any default) return [v]. *)
Theorem django_set_correlation_id_roundtrip (r : Django.HttpRequest) (v dflt : string) :
  Django.DjangoRequestAdapter.get_correlation_id_in_request_context
    (Django.DjangoRequestAdapter.set_correlation_id r v) = Ok v
  /\ Django.DjangoRequestAdapter.get_http_header
       (Django.DjangoRequestAdapter.set_correlation_id r v) "X-Correlation-ID" dflt
     = Ok v.
Proof.
  unfold Django.DjangoRequestAdapter.get_correlation_id_in_request_context,
    Django.DjangoRequestAdapter.get_http_header,
    Django.DjangoRequestAdapter.set_correlation_id, Django.META_get, Django.META_set.
  rewrite header_name_converted_correlation. simpl.
  rewrite lookup_insert_eq. split; reflexivity.
Qed.

(** The store touches no other [META] key. *)
Lemma django_set_correlation_id_frame (r : Django.HttpRequest) (v key dflt : string) :
  key <> "HTTP_X_CORRELATION_ID" ->
  Django.META_get (Django.DjangoRequestAdapter.set_correlation_id r v) key dflt
  = Django.META_get r key dflt.
Proof.
  intros Hne. unfold Django.DjangoRequestAdapter.set_correlation_id, Django.META_get,
    Django.META_set. simpl.
  rewrite lookup_insert_ne by congruence. reflexivity.
Qed.

(** ** The Django response adapter *)

Lemma django_get_status_code_total (response : Django.HttpResponse) :
  Django.DjangoResponseAdapter.get_status_code response
  = Ok (PInt (Django.status_code response)).
Proof. reflexivity. Qed.

(** With a [Content-Length] header the size is that header's value. *)
Lemma django_get_response_size_header (response : Django.HttpResponse) (v : string) :
  Django.header response "Content-Length" = Some v ->
  Django.DjangoResponseAdapter.get_response_size response = Ok (PStr v).
Proof.
  intros H. unfold Django.DjangoResponseAdapter.get_response_size. rewrite H. reflexivity.
Qed.

(** Without one, the size is the stream position, and the sentinel when
    [tell()] raises [OSError]. *)
Lemma django_get_response_size_probe (response : Django.HttpResponse) :
  Django.header response "Content-Length" = None ->
  (forall pos, Django.tell response = Ok pos ->
     Django.DjangoResponseAdapter.get_response_size response = Ok (PInt pos))
  /\ (Django.tell response = Raise OSError ->
     Django.DjangoResponseAdapter.get_response_size response = Ok (PStr EMPTY_VALUE)).
Proof.
  intros H. unfold Django.DjangoResponseAdapter.get_response_size. rewrite H.
  split; intros; match goal with Ht : Django.tell _ = _ |- _ => rewrite Ht end; reflexivity.
Qed.

(** With a [Content-Type] header the content type is its value. *)
Lemma django_get_content_type_header (response : Django.HttpResponse) (v : string) :
  Django.header response "Content-Type" = Some v ->
  Django.DjangoResponseAdapter.get_content_type response = Ok (PStr v).
Proof.
  intros H. unfold Django.DjangoResponseAdapter.get_content_type. rewrite H. reflexivity.
Qed.


(** C5, at the failing input: on a response without a content type
    [get_content_type] raises [KeyError] instead of returning the sentinel,
    while [get_status_code] and [get_response_size] do return (the size
    falls back to the sentinel). *)
Theorem django_get_content_type_missing_raises :
  Django.DjangoResponseAdapter.get_content_type response_without_content_type
  = Raise (KeyError "content-type")
  /\ Django.DjangoResponseAdapter.get_response_size response_without_content_type
     = Ok (PStr EMPTY_VALUE)
  /\ Django.DjangoResponseAdapter.get_status_code response_without_content_type
     = Ok (PInt 304).
Proof. repeat split. Qed.

(** [get_content_type] raises exactly when the header is absent. *)
Lemma django_get_content_type_raises_iff (response : Django.HttpResponse) :
  raises (Django.DjangoResponseAdapter.get_content_type response) = true
  <-> Django.header response "Content-Type" = None.
Proof.
  unfold Django.DjangoResponseAdapter.get_content_type.
  destruct (Django.header response "Content-Type"); cbn; split; congruence.
Qed.

(** ** The registry and [init] *)


Section RegistryFacts.
Context {Req Resp : Type}.
Implicit Types (g : globals Req Resp).

(** C8: once the active framework is set, every further call of [init]
    raises the configuration error and leaves the globals, the active
    framework binding among them, exactly as they were. *)
Theorem init_twice_fails g (framework_name : option string)
    (custom_formatter : option (pyclass unit)) :
  is_Some (_current_framework g) ->
  init framework_name custom_formatter g
  = (g, Raise (RuntimeError "Can not call init more than once")).
Proof.
  intros [current Hcur]. unfold init. py_unfold. rewrite Hcur. reflexivity.
Qed.

(** With a framework name whose binding's classes can be brought up,
    [init] returns normally, sets the active framework to the registered
    binding and the request util to the adapters' instances, and leaves the
    registry as it was. *)
Lemma init_selects_registered g (framework_name : string) (b : FrameworkBinding Req Resp)
    (ru : RequestUtil Req Resp) (custom_formatter : option (pyclass unit)) :
  _current_framework g = None ->
  str_truthy framework_name = true ->
  _framework_support_map g !! lower framework_name = Some b ->
  binding_starts (ENABLE_JSON_LOGGING g) b ru ->
  snd (init (Some framework_name) custom_formatter g) = Ok tt
  /\ _current_framework (fst (init (Some framework_name) custom_formatter g)) = Some b
  /\ _request_util (fst (init (Some framework_name) custom_formatter g)) = Some ru
  /\ _framework_support_map (fst (init (Some framework_name) custom_formatter g))
     = _framework_support_map g.
Proof.
  intros Hcur Htruthy Hb [Hru Hcfg]. unfold init. py_unfold. rewrite Hcur. simpl.
  rewrite Htruthy. simpl. rewrite Hb. simpl. rewrite Hru. simpl.
  destruct (ENABLE_JSON_LOGGING g); simpl; [|auto].
  destruct (app_configurator b) as [c|]; simpl; [|auto].
  destruct (Hcfg eq_refl) as (configurator & -> & Hconfig). simpl.
  rewrite Hconfig. simpl. auto.
Qed.

(** [init] never changes the registry. *)
Lemma init_keeps_registry g (framework_name : option string)
    (custom_formatter : option (pyclass unit)) :
  _framework_support_map (fst (init framework_name custom_formatter g))
  = _framework_support_map g.
Proof. unfold init. py_unfold. py_cases; reflexivity. Qed.

(** An unregistered framework name is refused, and no framework becomes
    active. *)
Lemma init_unknown_framework g (framework_name : string)
    (custom_formatter : option (pyclass unit)) :
  _current_framework g = None ->
  str_truthy framework_name = true ->
  _framework_support_map g !! lower framework_name = None ->
  snd (init (Some framework_name) custom_formatter g)
  = Raise (RuntimeError (lower framework_name +:+ "is not a supported framework"))
  /\ _current_framework (fst (init (Some framework_name) custom_formatter g)) = None.
Proof.
  intros Hcur Htruthy Hb. unfold init. py_unfold. rewrite Hcur. simpl.
  rewrite Htruthy. simpl. rewrite Hb. simpl. auto.
Qed.


Lemma registry_normalised_empty :
  registry_normalised (∅ : gmap string (FrameworkBinding Req Resp)).
Proof. intros k [b Hb]. rewrite lookup_empty in Hb. discriminate. Qed.


(** What a registration with valid classes does, whatever the registry
    holds. *)
Lemma register_framework_support_ok g (name : string) ac arc rq rs :
  str_truthy name = true ->
  valid_classes ac arc rq rs ->
  let b := {| app_configurator := ac;
              app_request_instrumentation_configurator := arc;
              request_adapter_class := rq;
              response_adapter_class := rs |} in
  let g' := fst (register_framework_support name ac arc rq rs g) in
  snd (register_framework_support name ac arc rq rs g) = Ok tt
  /\ _framework_support_map g' = <[lower name := b]> (_framework_support_map g)
  /\ emitted g'
     = (emitted g ++ (if bool_decide (is_Some (_framework_support_map g !! lower name))
                      then [Log WARNING ("Re-register framework " +:+ lower name)]
                      else []))%list
  /\ _current_framework g' = _current_framework g
  /\ _request_util g' = _request_util g.
Proof.
  intros Hname (Hrq & Hrs & Harc & Hac). cbv zeta.
  unfold register_framework_support, validate_subclass. py_unfold.
  rewrite Hname, Hrq, Hrs, Harc. simpl.
  destruct ac as [c|]; [rewrite Hac|]; simpl;
    destruct (bool_decide (is_Some (_framework_support_map g !! lower name))); simpl;
    rewrite ?app_nil_r; auto.
Qed.

Lemma registry_normalised_register g (name : string) ac arc rq rs :
  registry_normalised (_framework_support_map g) ->
  registry_normalised
    (_framework_support_map (fst (register_framework_support name ac arc rq rs g))).
Proof.
  intros Hwf. unfold register_framework_support, validate_subclass. py_unfold.
  destruct (str_truthy name) eqn:Hname; simpl; [|exact Hwf].
  destruct (issubclass rq _); simpl; [|exact Hwf].
  destruct (issubclass rs _); simpl; [|exact Hwf].
  destruct (issubclass arc _); simpl; [|exact Hwf].
  assert (Hins : registry_normalised
            (<[lower name := {| app_configurator := ac;
                 app_request_instrumentation_configurator := arc;
                 request_adapter_class := rq;
                 response_adapter_class := rs |}]> (_framework_support_map g))).
  { intros k [b Hb]. destruct (decide (lower name = k)) as [<-|Hne].
    - split; [rewrite str_truthy_lower; exact Hname | apply lower_idempotent].
    - rewrite lookup_insert_ne in Hb by exact Hne. apply Hwf. eauto. }
  destruct ac as [c|]; simpl.
  - destruct (issubclass c _); simpl; [|exact Hwf].
    destruct (bool_decide _); simpl; exact Hins.
  - destruct (bool_decide _); simpl; exact Hins.
Qed.

(** C9: registering a name the registry already holds, with valid adapter
    and configurator classes, returns normally, hands the library logger
    one warning, and stores the new binding under that name, leaving every
    other name as it was. *)
Theorem register_twice_overwrites g (name : string) (old : FrameworkBinding Req Resp)
    ac arc rq rs :
  registry_normalised (_framework_support_map g) ->
  _framework_support_map g !! name = Some old ->
  valid_classes ac arc rq rs ->
  snd (register_framework_support name ac arc rq rs g) = Ok tt
  /\ emitted (fst (register_framework_support name ac arc rq rs g))
     = (emitted g ++ [Log WARNING ("Re-register framework " +:+ name)])%list
  /\ _framework_support_map (fst (register_framework_support name ac arc rq rs g)) !! name
     = Some {| app_configurator := ac;
               app_request_instrumentation_configurator := arc;
               request_adapter_class := rq;
               response_adapter_class := rs |}
  /\ forall other, other <> name ->
       _framework_support_map (fst (register_framework_support name ac arc rq rs g)) !! other
       = _framework_support_map g !! other.
Proof.
  intros Hwf Hold Hvalid.
  destruct (Hwf name) as [Hname Hlower]; [eauto|].
  destruct (register_framework_support_ok g name ac arc rq rs Hname Hvalid)
    as (Hok & Hmap & Hlog & _).
  rewrite Hlower in Hmap, Hlog.
  rewrite bool_decide_eq_true_2 in Hlog by eauto.
  repeat split; [exact Hok | exact Hlog | |].
  - rewrite Hmap. apply lookup_insert_eq.
  - intros other Hne. rewrite Hmap. apply lookup_insert_ne. congruence.
Qed.

End RegistryFacts.

(** *** The registry and [init], on the Django registration *)

Lemma g_registered_lookup :
  _framework_support_map g_registered !! "django" = Some django_binding.
Proof. vm_compute. reflexivity. Qed.

Lemma g_registered_normalised : registry_normalised (_framework_support_map g_registered).
Proof. apply registry_normalised_register. apply registry_normalised_empty. Qed.

Lemma django_binding_starts (enable_json_logging : bool) :
  binding_starts enable_json_logging django_binding django_request_util.
Proof. split; [reflexivity | intros _; exact I]. Qed.

Lemma g_django_current : _current_framework g_django = Some django_binding.
Proof.
  apply (init_selects_registered g_registered "django" django_binding django_request_util
           None);
    [reflexivity | reflexivity | exact g_registered_lookup | apply django_binding_starts].
Qed.

Lemma init_twice_fails_witness :
  is_Some (_current_framework g_django)
  /\ init (Some "django") None g_django
     = (g_django, Raise (RuntimeError "Can not call init more than once")).
Proof.
  split.
  - rewrite g_django_current. eauto.
  - apply (init_twice_fails g_django (Some "django") None).
    rewrite g_django_current. eauto.
Defined.

(** [init] without a framework name leaves no framework active, and a
    second such call returns normally. *)
Example init_non_web_twice :
  _current_framework (fst (init None None g_registered)) = None
  /\ snd (init None None (fst (init None None g_registered))) = Ok tt.
Proof. vm_compute. split; reflexivity. Qed.

Lemma register_twice_overwrites_witness :
  snd (register_framework_support "django" None
         DjangoAppRequestInstrumentationConfigurator_class
         OverrideRequestAdapter_class DjangoResponseAdapter_class g_registered) = Ok tt
  /\ _framework_support_map
       (fst (register_framework_support "django" None
               DjangoAppRequestInstrumentationConfigurator_class
               OverrideRequestAdapter_class DjangoResponseAdapter_class g_registered))
     !! "django"
     = Some {| app_configurator := None;
               app_request_instrumentation_configurator :=
                 DjangoAppRequestInstrumentationConfigurator_class;
               request_adapter_class := OverrideRequestAdapter_class;
               response_adapter_class := DjangoResponseAdapter_class |}.
Proof.
  destruct (register_twice_overwrites g_registered "django" django_binding None
              DjangoAppRequestInstrumentationConfigurator_class
              OverrideRequestAdapter_class DjangoResponseAdapter_class
              g_registered_normalised g_registered_lookup)
    as (Hok & _ & Hmap & _).
  - repeat split.
  - split; [exact Hok | exact Hmap].
Defined.

(** ** Float division and truncation *)

(** [rne_div a b] lies between the floor of [a / b] and [a / b + 1/2]. *)
Lemma rne_div_bounds (a b : Z) :
  0 <= a -> 0 < b -> a / b <= rne_div a b /\ 2 * (b * rne_div a b) <= 2 * a + b.
Proof.
  intros Ha Hb. unfold rne_div.
  pose proof (Z.div_mod a b ltac:(lia)) as Hdm.
  pose proof (Z.mod_pos_bound a b Hb) as Hmod.
  destruct (Z.compare_spec (2 * (a mod b)) b) as [Heq|Hlt|Hgt].
  - destruct (Z.even (a / b)); nia.
  - nia.
  - nia.
Qed.

(** At the exponent [binade] picks, the scaled quotient is at least 2^52:
    the mantissa has its 53 bits. *)
Lemma binade_lower (n d : Z) :
  0 < n -> 0 < d ->
  2 ^ 52 * snd (scaled n d (binade n d)) <= fst (scaled n d (binade n d)).
Proof.
  intros Hn Hd. unfold binade.
  set (e1 := Z.log2 n - Z.log2 d - 52).
  destruct (scaled n d e1) as [a b] eqn:Hs.
  destruct (Z.leb_spec (2 ^ 52 * b) a) as [Hle|Hgt].
  - rewrite Hs. exact Hle.
  - clear Hs Hgt a b.
    destruct (Z.log2_spec n Hn) as [HnL _].
    destruct (Z.log2_spec d Hd) as [_ HdU].
    pose proof (Z.log2_nonneg n) as HLn. pose proof (Z.log2_nonneg d) as HLd.
    unfold scaled. destruct (Z.leb_spec 0 (e1 - 1)) as [Hpos|Hneg]; simpl.
    + (* n >= 2^L = 2^52 * 2^(M+1) * 2^(e1-1) > 2^52 * d * 2^(e1-1) *)
      assert (HL : Z.log2 n = 52 + (Z.succ (Z.log2 d) + (e1 - 1))) by (unfold e1; lia).
      rewrite HL in HnL. rewrite !Z.pow_add_r in HnL by lia.
      assert (0 < 2 ^ (e1 - 1)) by (apply Z.pow_pos_nonneg; lia).
      assert (0 < 2 ^ 52) by (apply Z.pow_pos_nonneg; lia).
      nia.
    + assert (HL : Z.succ (Z.log2 d) + 52 = Z.log2 n + (- (e1 - 1))) by (unfold e1; lia).
      assert (Hp : 2 ^ (Z.succ (Z.log2 d)) * 2 ^ 52 = 2 ^ Z.log2 n * 2 ^ (- (e1 - 1))).
      { rewrite <- !Z.pow_add_r by lia. f_equal. exact HL. }
      assert (0 < 2 ^ (- (e1 - 1))) by (apply Z.pow_pos_nonneg; lia).
      assert (0 < 2 ^ 52) by (apply Z.pow_pos_nonneg; lia).
      nia.
Qed.

Lemma binade_le (n d : Z) : binade n d <= Z.log2 n - Z.log2 d - 52.
Proof.
  unfold binade. destruct (scaled _ _ _) as [a b]. destruct (_ <=? _); lia.
Qed.

Lemma binade_ge (n d : Z) : Z.log2 n - Z.log2 d - 53 <= binade n d.
Proof.
  unfold binade. destruct (scaled _ _ _) as [a b]. destruct (_ <=? _); lia.
Qed.

(** [int(n / d)] is the floor of the exact quotient as long as the
    quotient is below [2^k] and the divisor below [2^(54-k)]: the spacing of
    the floats near the quotient is then finer than [1/d]. *)
Lemma int_truediv_floor (n d k : Z) :
  0 <= n -> 0 < d -> 0 <= k <= 51 -> n < d * 2 ^ k -> d < 2 ^ (54 - k) ->
  int_of_float (int_truediv n d) = n / d.
Proof.
  intros Hn Hd Hk Hnk Hdk. unfold int_truediv.
  destruct (Z.eqb_spec n 0) as [->|Hn0].
  { unfold int_of_float. simpl. reflexivity. }
  assert (Hnpos : 0 < n) by lia.
  rewrite (Z.abs_eq n) by lia. rewrite (Z.sgn_pos n) by lia.
  pose proof (binade_le n d) as Hle. pose proof (binade_ge n d) as Hge.
  pose proof (binade_lower n d Hnpos Hd) as Hlow.
  pose proof (Z.log2_nonneg n) as HLn. pose proof (Z.log2_nonneg d) as HLd.
  assert (HLnk : Z.log2 n <= Z.log2 d + k).
  { pose proof (Z.log2_mul_pow2 d k Hd ltac:(lia)) as Hmp.
    pose proof (Z.log2_le_mono n (d * 2 ^ k) ltac:(lia)). lia. }
  assert (HLd54 : Z.log2 d < 54 - k).
  { apply Z.log2_lt_pow2; lia. }
  set (e := binade n d) in *.
  assert (He : e < 0) by lia.
  rewrite Z.max_l by lia.
  unfold scaled in *. destruct (Z.leb_spec 0 e) as [Hbad|_]; [lia|]. simpl in Hlow.
  unfold int_of_float. simpl. destruct (Z.leb_spec 0 e) as [Hbad|_]; [lia|].
  set (s := 2 ^ (- e)) in *.
  assert (Hs : 0 < s) by (apply Z.pow_pos_nonneg; lia).
  destruct (rne_div_bounds (n * s) d ltac:(nia) Hd) as [Hm1 Hm2].
  set (m := rne_div (n * s) d) in *.
  (* 2 * s > d *)
  assert (Hks : 2 ^ 52 < 2 ^ k * s).
  { assert (0 < 2 ^ k) by (apply Z.pow_pos_nonneg; lia). nia. }
  assert (Hexp : 53 - k <= - e).
  { unfold s in Hks. rewrite <- Z.pow_add_r in Hks by lia.
    apply Z.pow_lt_mono_r_iff in Hks; lia. }
  assert (Hs2 : 2 ^ (54 - k) <= 2 * s).
  { unfold s. replace (54 - k) with (1 + (53 - k)) by lia.
    rewrite Z.pow_add_r by lia. change (2 ^ 1) with 2.
    assert (2 ^ (53 - k) <= 2 ^ (- e)) by (apply Z.pow_le_mono_r; lia). lia. }
  rewrite Z.mul_1_l.
  rewrite Z.quot_div_nonneg.
  2:{ assert (0 <= n * s / d) by (apply Z.div_pos; nia). lia. }
  2:{ lia. }
  pose proof (Z.div_mod n d ltac:(lia)) as Hdm.
  pose proof (Z.mod_pos_bound n d Hd) as Hmod.
  set (q := n / d) in *. set (r := n mod d) in *.
  assert (Hq1 : q * s <= m).
  { assert (q * s <= n * s / d); [|lia].
    apply Z.div_le_lower_bound; nia. }
  assert (Hq2 : m < (q + 1) * s) by nia.
  symmetry. apply (Z.div_unique_pos m s q (m - q * s)); lia.
Qed.

(** ** Elapsed time *)

Lemma timedelta_new_total (d s us : Z) :
  total_microseconds (timedelta_new d s us) = (d * 86400 + s) * 1000000 + us.
Proof.
  unfold total_microseconds, timedelta_new. simpl.
  pose proof (Z.div_mod us 1000000 ltac:(lia)).
  pose proof (Z.div_mod (s + us / 1000000) 86400 ltac:(lia)).
  lia.
Qed.

Lemma timedelta_new_microseconds_range (d s us : Z) :
  0 <= microseconds (timedelta_new d s us) < 1000000.
Proof. unfold timedelta_new. simpl. apply Z.mod_pos_bound. lia. Qed.

Lemma timedelta_new_seconds_range (d s us : Z) :
  0 <= seconds (timedelta_new d s us) < 86400.
Proof. unfold timedelta_new. simpl. apply Z.mod_pos_bound. lia. Qed.

(** The difference of two datetimes spans the time between them. *)
Lemma datetime_sub_total (completion arrival : datetime) :
  total_microseconds (datetime_sub completion arrival)
  = elapsed_microseconds arrival completion.
Proof.
  unfold datetime_sub. rewrite timedelta_new_total.
  unfold elapsed_microseconds, datetime_microseconds. lia.
Qed.

(** A [timedelta] is determined by its total once it is normalised. *)
Lemma datetime_sub_of_elapsed (completion arrival : datetime) (us : Z) :
  0 <= us < 1000000 ->
  elapsed_microseconds arrival completion = us ->
  datetime_sub completion arrival = {| days := 0; seconds := 0; microseconds := us |}.
Proof.
  intros Hus Hel. rewrite <- datetime_sub_total in Hel.
  pose proof (timedelta_new_microseconds_range
                (toordinal completion - toordinal arrival)
                (second completion + minute completion * 60 + hour completion * 3600
                 - (second arrival + minute arrival * 60 + hour arrival * 3600))
                (microsecond completion - microsecond arrival)) as Hm.
  pose proof (timedelta_new_seconds_range
                (toordinal completion - toordinal arrival)
                (second completion + minute completion * 60 + hour completion * 3600
                 - (second arrival + minute arrival * 60 + hour arrival * 3600))
                (microsecond completion - microsecond arrival)) as Hs.
  fold (datetime_sub completion arrival) in Hm, Hs.
  destruct (datetime_sub completion arrival) as [d s u].
  unfold total_microseconds in Hel. simpl in *.
  f_equal; lia.
Qed.

(** On a normalised non-negative [timedelta] below 2^34 seconds the
    source's expression is the duration in whole milliseconds. *)
Lemma elapsed_ms_exact (td : timedelta) :
  0 <= microseconds td < 1000000 ->
  0 <= total_microseconds td < 2 ^ 34 * 1000000 ->
  elapsed_ms td = total_microseconds td / 1000.
Proof.
  intros Hus Htot. unfold elapsed_ms, total_seconds.
  rewrite (int_truediv_floor (total_microseconds td) 1000000 34) by lia.
  rewrite (int_truediv_floor (microseconds td) 1000 10) by lia.
  unfold total_microseconds in *.
  set (w := days td * 86400 + seconds td) in *.
  replace (w * 1000000 + microseconds td) with (microseconds td + w * 1000000) by lia.
  rewrite Z.div_add by lia.
  rewrite (Z.div_small (microseconds td) 1000000) by lia.
  replace (microseconds td + w * 1000000) with (microseconds td + (w * 1000) * 1000) by lia.
  rewrite Z.div_add by lia. lia.
Qed.

Section RequestInfoFacts.
Context {U : Util} {Req Resp : Type}.
Implicit Types (g : globals Req Resp) (self : RequestInfo Req).

(** [update_response_status] assigns [response_time_ms] before it asks the
    response adapter anything, so the value is set whatever the adapter
    does. *)
Lemma update_response_status_time g (ru : RequestUtil Req Resp) (utcnow : datetime)
    (response : Resp) self :
  _request_util g = Some ru ->
  response_time_ms (fst (update_response_status g utcnow response self))
  = Some (elapsed_ms (datetime_sub utcnow (request_start self))).
Proof.
  intros Hru. unfold update_response_status, getattr. py_unfold. rewrite Hru. simpl.
  destruct (get_status_code _ _); simpl; [|reflexivity].
  destruct (get_response_size _ _); simpl; [|reflexivity].
  destruct (get_content_type _ _); simpl; reflexivity.
Qed.

(** When the adapter answers, one call assigns the five response
    attributes from the clock and the response, whatever they held. *)
Lemma update_response_status_ok g (ru : RequestUtil Req Resp) (utcnow : datetime)
    (response : Resp) self (status size content_type : pyval) :
  _request_util g = Some ru ->
  get_status_code (response_adapter ru) response = Ok status ->
  get_response_size (response_adapter ru) response = Ok size ->
  get_content_type (response_adapter ru) response = Ok content_type ->
  update_response_status g utcnow response self
  = ({| request_start := request_start self;
        request := request self;
        request_received_at := request_received_at self;
        response_time_ms := Some (elapsed_ms (datetime_sub utcnow (request_start self)));
        response_status := Some status;
        response_size_b := Some size;
        response_content_type := Some content_type;
        response_sent_at := Some (iso_time_format utcnow) |}, Ok tt).
Proof.
  intros Hru Hst Hsz Hct. unfold update_response_status, getattr. py_unfold.
  rewrite Hru. simpl. rewrite Hst. simpl. rewrite Hsz. simpl. rewrite Hct. reflexivity.
Qed.

(** Before [init] has selected a framework the call raises and assigns
    nothing. *)
Lemma update_response_status_uninitialised g (utcnow : datetime) (response : Resp) self :
  _request_util g = None ->
  update_response_status g utcnow response self
  = (self, Raise (AttributeError "'NoneType' object has no attribute 'response_adapter'")).
Proof.
  intros Hru. unfold update_response_status, getattr. py_unfold. rewrite Hru. reflexivity.
Qed.

(** C3, amended: for arrival and completion timestamps with completion at
    or after arrival and less than 2^34 seconds after it, the
    [response_time_ms] that [update_response_status] assigns is the
    elapsed time truncated to whole milliseconds. *)
Theorem response_time_ms_truncates g (ru : RequestUtil Req Resp)
    (arrival completion : datetime) (request : Req) (response : Resp) :
  _request_util g = Some ru ->
  0 <= elapsed_microseconds arrival completion < 2 ^ 34 * 1000000 ->
  response_time_ms
    (fst (update_response_status g completion response (RequestInfo_new arrival request)))
  = Some (elapsed_microseconds arrival completion / 1000).
Proof.
  intros Hru Hel. rewrite (update_response_status_time g ru) by exact Hru.
  simpl. f_equal. rewrite <- datetime_sub_total in *.
  apply elapsed_ms_exact; [|exact Hel].
  unfold datetime_sub. apply timedelta_new_microseconds_range.
Qed.

End RequestInfoFacts.

(** *** Elapsed time, on the Django adapters *)

Lemma g_django_request_util : _request_util g_django = Some django_request_util.
Proof. vm_compute. reflexivity. Qed.

Lemma response_time_ms_truncates_witness :
  0 <= elapsed_microseconds t_arrival t_50ms < 2 ^ 34 * 1000000
  /\ response_time_ms
       (fst (update_response_status g_django t_50ms example_response
               (RequestInfo_new t_arrival example_request)))
     = Some 50.
Proof.
  assert (Hel : 0 <= elapsed_microseconds t_arrival t_50ms < 2 ^ 34 * 1000000)
    by (change (elapsed_microseconds t_arrival t_50ms) with 50000; lia).
  split; [exact Hel|].
  exact (response_time_ms_truncates g_django django_request_util t_arrival t_50ms
           example_request example_response g_django_request_util Hel).
Defined.

(** C3 as stated fails: [t_far] lies 17180121600.999999 seconds after
    [t_arrival]; the nearest binary64 to that quotient is 17180121601.0, so
    the whole seconds come out one too many and [response_time_ms] is 1000
    above the truncated elapsed time. *)
Lemma response_time_ms_misrounds_far :
  0 <= elapsed_microseconds t_arrival t_far
  /\ elapsed_microseconds t_arrival t_far / 1000 = 17180121600999
  /\ response_time_ms
       (fst (update_response_status g_django t_far example_response
               (RequestInfo_new t_arrival example_request)))
     = Some 17180121601999.
Proof.
  change (elapsed_microseconds t_arrival t_far) with 17180121600999999.
  split; [lia|]. split; vm_compute; reflexivity.
Qed.

(** ** Ordered dicts *)

Lemma dict_get_set_eq (k : string) (v : pyval) (d : pydict) :
  dict_get k (dict_set k v d) = Some v.
Proof.
  induction d as [|[k' v'] d IH]; simpl.
  - rewrite String.eqb_refl. reflexivity.
  - destruct (String.eqb k k') eqn:E; simpl; rewrite ?String.eqb_refl, ?E; auto.
Qed.

Lemma dict_get_set_ne (k k' : string) (v : pyval) (d : pydict) :
  k <> k' -> dict_get k (dict_set k' v d) = dict_get k d.
Proof.
  intros Hne. apply String.eqb_neq in Hne.
  induction d as [|[k1 v1] d IH]; simpl.
  - rewrite Hne. reflexivity.
  - destruct (String.eqb k' k1) eqn:E; simpl.
    + apply String.eqb_eq in E. subst k1. rewrite Hne. reflexivity.
    + rewrite IH. reflexivity.
Qed.

Lemma dict_get_None_keys (k : string) (d : pydict) :
  dict_get k d = None <-> ~ In k (dict_keys d).
Proof.
  induction d as [|[k' v'] d IH]; simpl; [tauto|].
  destruct (String.eqb k k') eqn:E.
  - apply String.eqb_eq in E. subst. split; [discriminate | tauto].
  - apply String.eqb_neq in E. rewrite IH. split; [intros H [H'|H']; congruence | tauto].
Qed.

(** After [d.update(other)] a key of [other] holds [other]'s value, and
    any other key keeps the one it had in [d]. *)
Lemma dict_get_update (k : string) (d other : pydict) :
  dict_wf other ->
  dict_get k (dict_update d other)
  = match dict_get k other with Some v => Some v | None => dict_get k d end.
Proof.
  unfold dict_wf, dict_update. revert d.
  induction other as [|[k1 v1] other IH]; intros d Hwf; simpl; [reflexivity|].
  simpl in Hwf. apply NoDup_cons in Hwf as [Hk1 Hwf].
  rewrite IH by exact Hwf.
  destruct (String.eqb k k1) eqn:E.
  - apply String.eqb_eq in E. subst k1.
    assert (Hnone : dict_get k other = None).
    { apply dict_get_None_keys. rewrite <- list_elem_of_In. exact Hk1. }
    rewrite Hnone. apply dict_get_set_eq.
  - apply String.eqb_neq in E. rewrite dict_get_set_ne by exact E. reflexivity.
Qed.

Lemma dict_remove_set (k k' : string) (v : pyval) (d : pydict) :
  dict_remove k (dict_set k' v d)
  = if String.eqb k k' then dict_remove k d else dict_set k' v (dict_remove k d).
Proof.
  induction d as [|[k1 v1] d IH]; simpl.
  - destruct (String.eqb k k'); reflexivity.
  - destruct (String.eqb k' k1) eqn:E1; simpl.
    + apply String.eqb_eq in E1. subst k1.
      destruct (String.eqb k k') eqn:E; simpl; rewrite ?String.eqb_refl; reflexivity.
    + rewrite IH. destruct (String.eqb k k1) eqn:E2; destruct (String.eqb k k') eqn:E;
        simpl; rewrite ?E1; reflexivity.
Qed.

(** Dropping a key commutes with [update]. *)
Lemma dict_remove_update (k : string) (d other : pydict) :
  dict_remove k (dict_update d other)
  = dict_update (dict_remove k d) (dict_remove k other).
Proof.
  unfold dict_update. revert d.
  induction other as [|[k1 v1] other IH]; intros d; simpl; [reflexivity|].
  rewrite IH, dict_remove_set.
  destruct (String.eqb k k1); reflexivity.
Qed.

Lemma dict_get_update_None (k : string) (d other : pydict) :
  dict_get k other = None -> dict_get k (dict_update d other) = dict_get k d.
Proof.
  unfold dict_update. revert d.
  induction other as [|[k1 v1] other IH]; intros d Hnone; simpl in *; [reflexivity|].
  destruct (String.eqb k k1) eqn:E; [discriminate|].
  rewrite IH by exact Hnone. apply dict_get_set_ne. apply String.eqb_neq. exact E.
Qed.

Lemma dict_get_set (k k' : string) (v : pyval) (d : pydict) :
  dict_get k (dict_set k' v d) = if String.eqb k k' then Some v else dict_get k d.
Proof.
  destruct (String.eqb_spec k k') as [->|Hne].
  - apply dict_get_set_eq.
  - apply dict_get_set_ne. exact Hne.
Qed.

(** What [update] leaves under a key depends on the updated dict only
    through what it held under that key. *)
Lemma dict_get_update_congr (k : string) (d1 d2 other : pydict) :
  dict_get k d1 = dict_get k d2 ->
  dict_get k (dict_update d1 other) = dict_get k (dict_update d2 other).
Proof.
  unfold dict_update. revert d1 d2.
  induction other as [|[k1 v1] other IH]; intros d1 d2 H; simpl; [exact H|].
  apply IH. rewrite !dict_get_set, H. reflexivity.
Qed.

Lemma dict_keys_set (k : string) (v : pyval) (d : pydict) :
  exists rest, dict_keys (dict_set k v d) = (dict_keys d ++ rest)%list.
Proof.
  unfold dict_keys. induction d as [|[k' v'] d [rest IH]]; simpl.
  - exists [k]. reflexivity.
  - destruct (String.eqb_spec k k') as [->|Hne]; simpl.
    + exists []. rewrite app_nil_r. reflexivity.
    + exists rest. f_equal. exact IH.
Qed.

(** [update] keeps the keys already there, in their order, and appends. *)
Lemma dict_keys_update (d other : pydict) :
  exists rest, dict_keys (dict_update d other) = (dict_keys d ++ rest)%list.
Proof.
  unfold dict_update. revert d.
  induction other as [|[k1 v1] other IH]; intros d; simpl.
  - exists []. rewrite app_nil_r. reflexivity.
  - destruct (IH (dict_set k1 v1 d)) as [rest2 H2].
    destruct (dict_keys_set k1 v1 d) as [rest1 H1].
    exists (rest1 ++ rest2)%list. rewrite H2, H1, app_assoc. reflexivity.
Qed.

Lemma getattr_Ok_inv {A} (owner attr : string) (o : option A) (a : A) :
  getattr owner attr o = Ok a -> o = Some a.
Proof. destruct o; simpl; congruence. Qed.

(** ** The access-log formatter *)

Section AccessLogFacts.
Context {U : Util} {Req Resp : Type}.
Implicit Types (g : globals Req Resp) (record : LogRecord Req) (info : RequestInfo Req).
#[local] Arguments get_correlation_id : simpl never.

(** When the formatter returns an object, the record carries a
    [RequestInfo] whose five response attributes are assigned, and the
    object holds them under the response keys. *)
Lemma JSONRequestLogFormatter_object_inv g (utcnow : datetime) (n : nat) record
    (s' : nat * LogRecord Req) (obj : pydict) :
  JSONRequestLogFormatter_object g utcnow (n, record) = (s', Ok obj) ->
  exists info ms status size content_type sent_at,
    request_info record = Some info
    /\ response_time_ms info = Some ms
    /\ response_status info = Some status
    /\ response_size_b info = Some size
    /\ response_content_type info = Some content_type
    /\ response_sent_at info = Some sent_at
    /\ dict_get "response_time_ms" obj = Some (PInt ms)
    /\ dict_get "response_status" obj = Some status
    /\ dict_get "response_size_b" obj = Some size
    /\ dict_get "response_content_type" obj = Some content_type
    /\ dict_get "response_sent_at" obj = Some (PStr sent_at).
Proof.
  unfold JSONRequestLogFormatter_object, with_counter. py_unfold. simpl.
  intros H.
  destruct (getattr "LogRecord" _ (request_info record)) as [info|] eqn:Hinfo;
    simpl in H; [|discriminate].
  destruct (getattr "NoneType" _ (_request_util g)) as [ru|]; simpl in H; [|discriminate].
  destruct (get_content_length _ _); simpl in H; [|discriminate].
  destruct (get_correlation_id ru g None _ n) as [n' [[cid stored]|e]]; simpl in H;
    [|discriminate].
  repeat match type of H with
  | context [match ?x with Ok _ => _ | Raise _ => _ end] =>
      destruct x eqn:?; simpl in H; [|discriminate]
  end.
  injection H as _ Hobj. subst obj.
  repeat match goal with
  | E : getattr _ _ _ = Ok _ |- _ => apply getattr_Ok_inv in E
  end.
  do 6 eexists. repeat split; try eassumption; reflexivity.
Qed.

(** The formatter never returns an object for a record whose
    [RequestInfo] was not finalized. *)
Lemma JSONRequestLogFormatter_object_unfinalized g (utcnow : datetime) (n : nat) record
    info :
  request_info record = Some info ->
  response_time_ms info = None ->
  is_ok (snd (JSONRequestLogFormatter_object g utcnow (n, record))) = false.
Proof.
  intros Hinfo Hms.
  destruct (JSONRequestLogFormatter_object g utcnow (n, record)) as [s' [obj|e]] eqn:H;
    [|reflexivity].
  apply JSONRequestLogFormatter_object_inv in H
    as (info' & ms & ? & ? & ? & ? & Hinfo' & Hms' & _).
  congruence.
Qed.

(** [update_response_status] never touches the three attributes the
    constructor assigned. *)
Lemma update_response_status_frame g (utcnow : datetime) (response : Resp) info :
  request_start (fst (update_response_status g utcnow response info)) = request_start info
  /\ request (fst (update_response_status g utcnow response info)) = request info
  /\ request_received_at (fst (update_response_status g utcnow response info))
     = request_received_at info.
Proof.
  unfold update_response_status, getattr. py_unfold.
  destruct (_request_util g) as [ru|]; simpl; [|auto].
  destruct (get_status_code _ _); simpl; [|auto].
  destruct (get_response_size _ _); simpl; [|auto].
  destruct (get_content_type _ _); simpl; auto.
Qed.

End AccessLogFacts.

(** ** The correlation-id policy *)

Lemma present_value_true (v : string) :
  v <> "" -> v <> EMPTY_VALUE -> present_value v = true.
Proof.
  intros Hne Hsent. unfold present_value.
  apply String.eqb_neq in Hsent. rewrite Hsent.
  destruct v; [congruence | reflexivity].
Qed.

Section CorrelationIdFacts.
Context {Req Resp : Type}.
Implicit Types (ra : RequestAdapter Req) (g : globals Req Resp).

(** The search stops at the first header whose value is present. *)
Lemma first_header_value_found ra (request : Req) (pre post : list string) (h v : string) :
  (forall h', In h' pre ->
     exists x, get_http_header ra request h' EMPTY_VALUE = Ok x /\ present_value x = false) ->
  get_http_header ra request h EMPTY_VALUE = Ok v ->
  present_value v = true ->
  first_header_value ra request (pre ++ h :: post) = Ok (Some v).
Proof.
  intros Hpre Hh Hv. induction pre as [|h0 pre IH]; simpl.
  - rewrite Hh. simpl. rewrite Hv. reflexivity.
  - destruct (Hpre h0 (or_introl eq_refl)) as (x & Hx & Hpx).
    rewrite Hx. simpl. rewrite Hpx. apply IH.
    intros h' Hin. apply Hpre. right. exact Hin.
Qed.

(** A found header value is returned as it is: the generator is not
    called and nothing is stored on the request. *)
Lemma resolve_found ra g (request : Req) (v : string) (n : nat) :
  first_header_value ra request (CORRELATION_ID_HEADERS g) = Ok (Some v) ->
  resolve ra g request n = (n, Ok (v, request)).
Proof. intros H. unfold resolve. py_unfold. rewrite H. reflexivity. Qed.

(** Without a header value, the policy mints the generator's next id and
    stores it on the request, or returns the sentinel when creation is
    disabled. *)
Lemma resolve_not_found ra g (request : Req) (n : nat) :
  first_header_value ra request (CORRELATION_ID_HEADERS g) = Ok None ->
  resolve ra g request n
  = if CREATE_CORRELATION_ID_IF_NOT_EXISTS g
    then (S n, Ok (CORRELATION_ID_GENERATOR g n,
                   set_correlation_id ra request (CORRELATION_ID_GENERATOR g n)))
    else (n, Ok (EMPTY_VALUE, request)).
Proof.
  intros H. unfold resolve. py_unfold. rewrite H. simpl.
  destruct (CREATE_CORRELATION_ID_IF_NOT_EXISTS g); reflexivity.
Qed.

Lemma is_ok_true {A} (x : result A) : is_ok x = true -> exists a, x = Ok a.
Proof. destruct x; [eauto | discriminate]. Qed.

Lemma first_header_value_total ra (request : Req) (headers : list string) :
  request_adapter_total ra ->
  exists found, first_header_value ra request headers = Ok found.
Proof.
  intros Htot. induction headers as [|h hs [found IH]]; simpl; [eauto|].
  destruct (Htot request) as (Hh & _).
  destruct (is_ok_true _ (Hh h EMPTY_VALUE)) as [v ->]. simpl.
  destruct (present_value v); eauto.
Qed.

(** With an adapter that answers, the lookup with a request always returns
    an id and the request it may have stored the id on. *)
Lemma get_correlation_id_total g (ru : RequestUtil Req Resp) (ambient : option Req)
    (request : Req) (n : nat) :
  request_adapter_total (request_adapter ru) ->
  exists n' cid r',
    get_correlation_id ru g ambient (Some request) n = (n', Ok (cid, Some r')).
Proof.
  intros Htot. unfold get_correlation_id. py_unfold.
  destruct (first_header_value_total (request_adapter ru) request
              (CORRELATION_ID_HEADERS g) Htot) as [[v|] Hf].
  - rewrite (resolve_found _ g request v n Hf). eauto.
  - rewrite (resolve_not_found _ g request n Hf).
    destruct (CREATE_CORRELATION_ID_IF_NOT_EXISTS g); eauto.
Qed.

End CorrelationIdFacts.

Lemma django_request_adapter_total : request_adapter_total Django.request_adapter.
Proof.
  intros r. simpl. unfold Django.DjangoRequestAdapter.get_remote_user.
  destruct (Django.user r); repeat split; reflexivity.
Qed.

Section DjangoCorrelationId.
Context {Resp : Type}.
Implicit Types (g : globals Django.HttpRequest Resp) (r : Django.HttpRequest).

(** C1: when the request carries one of the configured correlation-id
    headers with a present, non-empty value, the lookup returns the value of
    the first such header; the generator's counter is unchanged (no id was
    minted) and so is the request (nothing was stored). *)
Theorem correlation_id_is_first_header_value g (ru : RequestUtil Django.HttpRequest Resp)
    (ambient : option Django.HttpRequest) r (pre post : list string) (h v : string)
    (n : nat) :
  request_adapter ru = Django.request_adapter ->
  CORRELATION_ID_HEADERS g = (pre ++ h :: post)%list ->
  (forall h', In h' pre ->
     present_value (Django.META_get r (Django.header_name_converted h') EMPTY_VALUE)
     = false) ->
  Django.META r !! Django.header_name_converted h = Some v ->
  v <> "" -> v <> EMPTY_VALUE ->
  get_correlation_id ru g ambient (Some r) n = (n, Ok (v, Some r)).
Proof.
  intros Hra Hheaders Hpre Hh Hne Hsent.
  unfold get_correlation_id. rewrite Hra. py_unfold.
  rewrite (resolve_found Django.request_adapter g r v n); [reflexivity|].
  rewrite Hheaders. apply first_header_value_found.
  - intros h' Hin. eexists. split; [reflexivity|]. apply Hpre. exact Hin.
  - simpl. unfold Django.DjangoRequestAdapter.get_http_header, Django.META_get.
    rewrite Hh. reflexivity.
  - apply present_value_true; assumption.
Qed.

End DjangoCorrelationId.

Lemma correlation_id_is_first_header_value_witness :
  CORRELATION_ID_HEADERS g_django = (["X-Correlation-ID"] ++ "X-Request-ID" :: [])%list
  /\ Django.META example_request !! Django.header_name_converted "X-Request-ID"
     = Some "req-42"
  /\ get_correlation_id django_request_util g_django None (Some example_request) 0%nat
     = (0%nat, Ok ("req-42", Some example_request)).
Proof.
  split; [reflexivity|]. split; [vm_compute; reflexivity|].
  apply (correlation_id_is_first_header_value g_django django_request_util None
           example_request ["X-Correlation-ID"] [] "X-Request-ID" "req-42" 0%nat).
  - reflexivity.
  - reflexivity.
  - intros h' [<-|[]]. vm_compute. reflexivity.
  - vm_compute. reflexivity.
  - discriminate.
  - discriminate.
Defined.

(** ** The access log of a finalized context *)

Lemma elapsed_ms_50ms :
  elapsed_ms {| days := 0; seconds := 0; microseconds := 50000 |} = 50.
Proof. vm_compute. reflexivity. Qed.

Section AccessLogOfFinalized.
Context {U : Util} {Req Resp : Type}.
Implicit Types (g : globals Req Resp) (record : LogRecord Req).
#[local] Arguments get_correlation_id : simpl never.

(** With a request adapter that answers, the access-log formatter returns
    an object for every record whose context is finalized. *)
Lemma access_log_total g (ru : RequestUtil Req Resp) (utcnow : datetime) (n : nat) record
    (info : RequestInfo Req) (ms : Z) (status size content_type : pyval)
    (sent_at : string) :
  _request_util g = Some ru ->
  request_adapter_total (request_adapter ru) ->
  request_info record = Some info ->
  response_time_ms info = Some ms ->
  response_status info = Some status ->
  response_size_b info = Some size ->
  response_content_type info = Some content_type ->
  response_sent_at info = Some sent_at ->
  is_ok (snd (JSONRequestLogFormatter_object g utcnow (n, record))) = true.
Proof.
  intros Hru Htot Hinfo Hms Hst Hsz Hct Hsent.
  unfold JSONRequestLogFormatter_object, with_counter. py_unfold. simpl.
  rewrite Hinfo, Hru. simpl.
  destruct (Htot (request info)) as (_ & _ & _ & _ & Hlen & _).
  destruct (is_ok_true _ Hlen) as [len ->]. simpl.
  destruct (get_correlation_id_total g ru None (request info) n Htot)
    as (n' & cid & r' & ->). simpl.
  destruct (Htot r') as (Hh & Huser & Hproto & Hpath & _ & Hmeth & Hip & Hport).
  destruct (is_ok_true _ Huser) as [? ->]. simpl.
  destruct (is_ok_true _ Hpath) as [? ->]. simpl.
  destruct (is_ok_true _ (Hh "referer" EMPTY_VALUE)) as [? ->]. simpl.
  destruct (is_ok_true _ (Hh "x-forwarded-for" EMPTY_VALUE)) as [? ->]. simpl.
  destruct (is_ok_true _ Hproto) as [? ->]. simpl.
  destruct (is_ok_true _ Hmeth) as [? ->]. simpl.
  destruct (is_ok_true _ Hip) as [? ->]. simpl.
  destruct (is_ok_true _ Hport) as [? ->]. simpl.
  rewrite Hms, Hst, Hsz, Hct, Hsent. reflexivity.
Qed.

(** With a request adapter that answers, formatting a record whose context
    was never finalized raises the [AttributeError] of the first response
    attribute the dict literal reads. *)
Lemma access_log_unfinalized_raises g (ru : RequestUtil Req Resp) (utcnow : datetime)
    (n : nat) record (info : RequestInfo Req) :
  _request_util g = Some ru ->
  request_adapter_total (request_adapter ru) ->
  request_info record = Some info ->
  response_time_ms info = None ->
  snd (JSONRequestLogFormatter_object g utcnow (n, record))
  = Raise (AttributeError "'RequestInfo' object has no attribute 'response_time_ms'").
Proof.
  intros Hru Htot Hinfo Hms.
  unfold JSONRequestLogFormatter_object, with_counter. py_unfold. simpl.
  rewrite Hinfo, Hru. simpl.
  destruct (Htot (request info)) as (_ & _ & _ & _ & Hlen & _).
  destruct (is_ok_true _ Hlen) as [len ->]. simpl.
  destruct (get_correlation_id_total g ru None (request info) n Htot)
    as (n' & cid & r' & ->). simpl.
  destruct (Htot r') as (Hh & Huser & Hproto & Hpath & _ & Hmeth & Hip & Hport).
  destruct (is_ok_true _ Huser) as [? ->]. simpl.
  destruct (is_ok_true _ Hpath) as [? ->]. simpl.
  destruct (is_ok_true _ (Hh "referer" EMPTY_VALUE)) as [? ->]. simpl.
  destruct (is_ok_true _ (Hh "x-forwarded-for" EMPTY_VALUE)) as [? ->]. simpl.
  destruct (is_ok_true _ Hproto) as [? ->]. simpl.
  destruct (is_ok_true _ Hmeth) as [? ->]. simpl.
  destruct (is_ok_true _ Hip) as [? ->]. simpl.
  destruct (is_ok_true _ Hport) as [? ->]. simpl.
  rewrite Hms. reflexivity.
Qed.

(** C2: a context created at [T] and finalized at [T'], 50 ms later, with
    a response for which the adapter reports status 200, size 1234 and
    content type application/json, is formatted by the access-log
    formatter (whose request adapter answers) into an object with
    [response_status] 200, [response_size_b] 1234, [response_content_type]
    "application/json" and [response_time_ms] 50. *)
Theorem access_log_of_finalized_context g (ru : RequestUtil Req Resp)
    (T T' utcnow : datetime) (r : Req) (response : Resp) (n : nat) record :
  _request_util g = Some ru ->
  request_adapter_total (request_adapter ru) ->
  elapsed_microseconds T T' = 50000 ->
  get_status_code (response_adapter ru) response = Ok (PInt 200) ->
  get_response_size (response_adapter ru) response = Ok (PInt 1234) ->
  get_content_type (response_adapter ru) response = Ok (PStr "application/json") ->
  request_info record
  = Some (fst (update_response_status g T' response (RequestInfo_new T r))) ->
  exists s' obj,
    JSONRequestLogFormatter_object g utcnow (n, record) = (s', Ok obj)
    /\ dict_get "response_status" obj = Some (PInt 200)
    /\ dict_get "response_size_b" obj = Some (PInt 1234)
    /\ dict_get "response_content_type" obj = Some (PStr "application/json")
    /\ dict_get "response_time_ms" obj = Some (PInt 50).
Proof.
  intros Hru Htot Hel Hst Hsz Hct Hinfo.
  assert (Hsub : datetime_sub T' T
                 = {| days := 0; seconds := 0; microseconds := 50000 |})
    by (apply datetime_sub_of_elapsed; [lia | exact Hel]).
  rewrite (update_response_status_ok g ru T' response _ _ _ _ Hru Hst Hsz Hct) in Hinfo.
  simpl in Hinfo. rewrite Hsub, elapsed_ms_50ms in Hinfo.
  pose proof (access_log_total g ru utcnow n record _ _ _ _ _ _
                Hru Htot Hinfo eq_refl eq_refl eq_refl eq_refl eq_refl) as Hok.
  destruct (JSONRequestLogFormatter_object g utcnow (n, record)) as [s' [obj|e]] eqn:Hobj;
    [|discriminate].
  exists s', obj. split; [reflexivity|].
  apply JSONRequestLogFormatter_object_inv in Hobj
    as (info & ms & status & size & content_type & sent_at & Hinfo' & Hms & Hst' & Hsz'
        & Hct' & _ & Gms & Gst & Gsz & Gct & _).
  rewrite Hinfo in Hinfo'. injection Hinfo' as <-. simpl in *.
  rewrite Gst, Gsz, Gct, Gms. repeat split; congruence.
Qed.

(** C4, amended: a second [update_response_status] on a context is not
    signalled, it returns normally, as the first did, and overwrites the
    five response attributes from its own clock reading and response;
    formatting an access-log record whose context was never finalized does
    not produce an object: the formatter raises, and when the request
    adapter answers, what it raises is the [AttributeError] of the missing
    [response_time_ms]. *)
Theorem second_finalize_overwrites_and_premature_format_raises g
    (ru : RequestUtil Req Resp) (t1 t2 : datetime) (response1 response2 : Resp)
    (info : RequestInfo Req)
    (status size content_type : pyval) :
  _request_util g = Some ru ->
  get_status_code (response_adapter ru) response2 = Ok status ->
  get_response_size (response_adapter ru) response2 = Ok size ->
  get_content_type (response_adapter ru) response2 = Ok content_type ->
  update_response_status g t2 response2
    (fst (update_response_status g t1 response1 info))
  = ({| request_start := request_start info;
        request := request info;
        request_received_at := request_received_at info;
        response_time_ms := Some (elapsed_ms (datetime_sub t2 (request_start info)));
        response_status := Some status;
        response_size_b := Some size;
        response_content_type := Some content_type;
        response_sent_at := Some (iso_time_format t2) |}, Ok tt)
  /\ forall (utcnow arrival : datetime) (n : nat) record (r : Req),
       request_info record = Some (RequestInfo_new arrival r) ->
       is_ok (snd (JSONRequestLogFormatter_object g utcnow (n, record))) = false
       /\ (request_adapter_total (request_adapter ru) ->
           snd (JSONRequestLogFormatter_object g utcnow (n, record))
           = Raise (AttributeError
                      "'RequestInfo' object has no attribute 'response_time_ms'")).
Proof.
  intros Hru Hst Hsz Hct. split.
  - rewrite (update_response_status_ok g ru t2 response2 _ status size content_type)
      by assumption.
    destruct (update_response_status_frame g t1 response1 info) as (-> & -> & ->).
    reflexivity.
  - intros utcnow arrival n record r Hinfo. split.
    + apply (JSONRequestLogFormatter_object_unfinalized g utcnow n record _ Hinfo).
      reflexivity.
    + intros Htot.
      apply (access_log_unfinalized_raises g ru utcnow n record _ Hru Htot Hinfo).
      reflexivity.
Qed.

End AccessLogOfFinalized.

(** ** The log formatters *)

Section LogFormatterFacts.
Context {U : Util} {Req Resp : Type}.
Implicit Types (g : globals Req Resp) (record : LogRecord Req).
#[local] Arguments get_correlation_id : simpl never.

Lemma get_exc_fields_other (k : string) record :
  k <> "exc_info" -> k <> "filename" -> dict_get k (get_exc_fields record) = None.
Proof.
  intros H1 H2. apply String.eqb_neq in H1, H2. unfold get_exc_fields. simpl.
  rewrite H1, H2. reflexivity.
Qed.

(** Whatever the dict literal holds, after the two updates a key of
    [props] other than the two exception fields holds the value [props]
    gives it. *)
Lemma merge_props_shadow record (d p : pydict) (k : string) (v : pyval) :
  props record = Some p -> dict_wf p -> dict_get k p = Some v ->
  k <> "exc_info" -> k <> "filename" ->
  dict_get k (merge_props_and_exc record d) = Some v.
Proof.
  intros Hp Hwf Hk H1 H2. unfold merge_props_and_exc. rewrite Hp.
  assert (Hprops : dict_get k (dict_update d p) = Some v).
  { rewrite dict_get_update by exact Hwf. rewrite Hk. reflexivity. }
  destruct (has_exc record); [|exact Hprops].
  rewrite dict_get_update_None by (apply get_exc_fields_other; assumption).
  exact Hprops.
Qed.

(** A key the record's [props] do not hold keeps the value of the dict
    literal, unless it is one of the exception fields. *)
Lemma merge_props_keeps record (d : pydict) (k : string) :
  (forall p, props record = Some p -> dict_get k p = None) ->
  k <> "exc_info" -> k <> "filename" ->
  dict_get k (merge_props_and_exc record d) = dict_get k d.
Proof.
  intros Hp H1 H2. unfold merge_props_and_exc.
  assert (Hprops : dict_get k match props record with
                              | Some p => dict_update d p
                              | None => d
                              end = dict_get k d).
  { destruct (props record) as [p|]; [|reflexivity].
    apply dict_get_update_None. apply Hp. reflexivity. }
  destruct (has_exc record); [|exact Hprops].
  rewrite dict_get_update_None by (apply get_exc_fields_other; assumption).
  exact Hprops.
Qed.

Lemma JSONLogWebFormatter_object_inv g (utcnow : datetime) record
    (s s' : nat * option Req) (obj : pydict) :
  JSONLogWebFormatter_object g utcnow record s = (s', Ok obj) ->
  exists correlation_id,
    obj = merge_props_and_exc record
            (JSONLogWebFormatter_fixed utcnow record correlation_id).
Proof.
  unfold JSONLogWebFormatter_object, with_counter. py_unfold. simpl. intros H.
  destruct (getattr "NoneType" _ (_request_util g)) as [ru|]; simpl in H; [|discriminate].
  destruct (get_correlation_id ru g (snd s) None (fst s)) as [n' [[cid amb]|e]];
    simpl in H; [|discriminate].
  injection H as _ Hobj. eauto.
Qed.

(** After the two updates the object starts with the keys of the dict
    literal, in the literal's order. *)
Lemma merge_props_and_exc_keys record (d : pydict) :
  exists rest, dict_keys (merge_props_and_exc record d) = (dict_keys d ++ rest)%list.
Proof.
  unfold merge_props_and_exc.
  assert (Hp : exists rest1,
             dict_keys match props record with
                       | Some p => dict_update d p
                       | None => d
                       end = (dict_keys d ++ rest1)%list).
  { destruct (props record) as [p|]; [apply dict_keys_update|].
    exists []. rewrite app_nil_r. reflexivity. }
  destruct Hp as [rest1 H1].
  destruct (has_exc record).
  - destruct (dict_keys_update match props record with
                               | Some p => dict_update d p
                               | None => d
                               end (get_exc_fields record)) as [rest2 H2].
    exists (rest1 ++ rest2)%list. rewrite H2, H1, app_assoc. reflexivity.
  - exists rest1. exact H1.
Qed.

(** Under a key of [props] the object holds [props]' value, and under any
    other key the one the dict literal gave, unless the key is one of the
    two exception fields. *)
Lemma merge_props_get record (d p : pydict) (k : string) :
  props record = Some p -> dict_wf p ->
  k <> "exc_info" -> k <> "filename" ->
  dict_get k (merge_props_and_exc record d)
  = match dict_get k p with Some v => Some v | None => dict_get k d end.
Proof.
  intros Hp Hwf H1 H2. destruct (dict_get k p) as [v|] eqn:Hk.
  - apply (merge_props_shadow record d p k v Hp Hwf Hk H1 H2).
  - apply merge_props_keeps; [|exact H1|exact H2].
    intros p' Hp'. rewrite Hp in Hp'. injection Hp' as <-. exact Hk.
Qed.

Lemma props_merged_after_merge record (p fixed : pydict) :
  props record = Some p -> dict_wf p ->
  ~ In "exc_info" (dict_keys fixed) -> ~ In "filename" (dict_keys fixed) ->
  props_merged_after p fixed (merge_props_and_exc record fixed).
Proof.
  intros Hp Hwf H1 H2. split; [|split].
  - apply merge_props_and_exc_keys.
  - intros k Hin. apply (merge_props_get record fixed p k Hp Hwf);
      intros ->; contradiction.
  - intros k v Hk Hne1 Hne2. apply (merge_props_shadow record fixed p k v Hp Hwf Hk Hne1 Hne2).
Qed.

(** When the request util is set and the correlation-id lookup returns,
    the web formatter returns the merge over its dict literal. *)
Lemma JSONLogWebFormatter_object_returns g (ru : RequestUtil Req Resp) (utcnow : datetime)
    record (s : nat * option Req) (n' : nat) (correlation_id : string)
    (ambient : option Req) :
  _request_util g = Some ru ->
  get_correlation_id ru g (snd s) None (fst s) = (n', Ok (correlation_id, ambient)) ->
  snd (JSONLogWebFormatter_object g utcnow record s)
  = Ok (merge_props_and_exc record
          (JSONLogWebFormatter_fixed utcnow record correlation_id)).
Proof.
  intros Hru Hcid. unfold JSONLogWebFormatter_object, with_counter. py_unfold. simpl.
  rewrite Hru. simpl. rewrite Hcid. reflexivity.
Qed.

(** C6: for a record carrying [props], both log formatters merge [props]
    into the object after the dict literal of fixed fields: the object
    starts with the fixed keys in the literal's order; under every fixed
    key it holds the value [props] gives when [props] has the key, and the
    fixed value otherwise; and every other key of [props] is in the object
    with its value (the two exception fields apart, which are written
    later). The plain formatter always builds this object; the web
    formatter builds it whenever the request util is set and its
    correlation-id lookup returns. *)
Theorem props_shadow_fixed_fields g (utcnow : datetime) record (p : pydict) :
  props record = Some p -> dict_wf p ->
  props_merged_after p (JSONLogFormatter_fixed utcnow record)
    (JSONLogFormatter_object utcnow record)
  /\ forall (ru : RequestUtil Req Resp) (s : nat * option Req) (n' : nat)
        (correlation_id : string) (ambient : option Req),
       _request_util g = Some ru ->
       get_correlation_id ru g (snd s) None (fst s) = (n', Ok (correlation_id, ambient)) ->
       exists obj,
         snd (JSONLogWebFormatter_object g utcnow record s) = Ok obj
         /\ props_merged_after p (JSONLogWebFormatter_fixed utcnow record correlation_id) obj.
Proof.
  intros Hp Hwf. split.
  - apply (props_merged_after_merge record p _ Hp Hwf); simpl; intuition discriminate.
  - intros ru s n' cid amb Hru Hcid. eexists. split.
    + apply (JSONLogWebFormatter_object_returns g ru utcnow record s n' cid amb Hru Hcid).
    + apply (props_merged_after_merge record p _ Hp Hwf); simpl; intuition discriminate.
Qed.

Lemma without_timestamps_merge record (d : pydict) :
  without_timestamps (merge_props_and_exc record d)
  = dict_update
      (dict_update (without_timestamps d)
         (without_timestamps match props record with Some p => p | None => [] end))
      (without_timestamps (if has_exc record then get_exc_fields record else [])).
Proof.
  unfold without_timestamps, merge_props_and_exc.
  destruct (has_exc record), (props record) as [p|];
    rewrite ?dict_remove_update; reflexivity.
Qed.

(** C7, amended: two calls of [JSONLogFormatter.format] on one record, at
    the clock readings [t1] and [t2], build objects that are equal once
    [written_at] and [written_ts] are dropped, so what the serializer
    renders of the other fields is byte-identical; the two timestamp
    fields are not cached with the record: unless [props] shadows them,
    each call sets them from its own clock reading. *)
Theorem format_twice_differs_in_timestamps_only g (t1 t2 : datetime) record :
  JSON_SERIALIZER g (without_timestamps (JSONLogFormatter_object t1 record))
  = JSON_SERIALIZER g (without_timestamps (JSONLogFormatter_object t2 record))
  /\ ((forall p, props record = Some p ->
         dict_get "written_at" p = None /\ dict_get "written_ts" p = None) ->
      forall t,
        dict_get "written_at" (JSONLogFormatter_object t record)
        = Some (PStr (iso_time_format t))
        /\ dict_get "written_ts" (JSONLogFormatter_object t record)
           = Some (PInt (epoch_nano_second t))).
Proof.
  split.
  - f_equal. unfold JSONLogFormatter_object.
    rewrite !without_timestamps_merge. reflexivity.
  - intros Hp t. unfold JSONLogFormatter_object. split.
    + rewrite merge_props_keeps; [reflexivity | | discriminate | discriminate].
      intros p Hprops. apply (Hp p Hprops).
    + rewrite merge_props_keeps; [reflexivity | | discriminate | discriminate].
      intros p Hprops. apply (Hp p Hprops).
Qed.

End LogFormatterFacts.

(** ** The formatters and the request context, on the examples *)

Lemma access_log_of_finalized_context_witness :
  elapsed_microseconds t_arrival t_50ms = 50000
  /\ exists s' obj,
       JSONRequestLogFormatter_object g_django t_1s (0%nat, access_record info_closed)
       = (s', Ok obj)
       /\ dict_get "response_status" obj = Some (PInt 200)
       /\ dict_get "response_size_b" obj = Some (PInt 1234)
       /\ dict_get "response_content_type" obj = Some (PStr "application/json")
       /\ dict_get "response_time_ms" obj = Some (PInt 50).
Proof.
  split; [vm_compute; reflexivity|].
  apply (access_log_of_finalized_context g_django django_request_util t_arrival t_50ms
           t_1s example_request example_response 0%nat (access_record info_closed)
           g_django_request_util django_request_adapter_total);
    vm_compute; reflexivity.
Defined.

(** The object of that access log, in full. *)
Example access_log_example :
  snd (JSONRequestLogFormatter_object g_django t_1s (0%nat, access_record info_closed))
  = Ok [("type", PStr "request");
        ("written_at", PStr "2000-01-01T00:00:01.000Z");
        ("written_ts", PInt 946684801000000000);
        ("component_id", PStr "-");
        ("component_name", PStr "-");
        ("component_instance", PInt 0);
        ("correlation_id", PStr "req-42");
        ("remote_user", PStr "-");
        ("request", PStr "/orders");
        ("referer", PStr "-");
        ("x_forwarded_for", PStr "-");
        ("protocol", PStr "HTTP/1.1");
        ("method", PStr "GET");
        ("remote_ip", PStr "10.0.0.7");
        ("request_size_b", PInt 512);
        ("remote_host", PStr "10.0.0.7");
        ("remote_port", PStr "-");
        ("request_received_at", PStr "2000-01-01T00:00:00.000Z");
        ("response_time_ms", PInt 50);
        ("response_status", PInt 200);
        ("response_size_b", PInt 1234);
        ("response_content_type", PStr "application/json");
        ("response_sent_at", PStr "2000-01-01T00:00:00.050Z")].
Proof. vm_compute. reflexivity. Qed.

(** C4 as stated fails: the second [update_response_status] on the
    finalized context returns normally and replaces the 50 ms of the first
    call by its own 1000 ms. *)
Lemma second_finalize_returns_normally :
  response_time_ms info_closed = Some 50
  /\ snd (update_response_status g_django t_1s example_response info_closed) = Ok tt
  /\ response_time_ms
       (fst (update_response_status g_django t_1s example_response info_closed))
     = Some 1000.
Proof. vm_compute. repeat split. Qed.

Lemma second_finalize_overwrites_and_premature_format_raises_witness :
  snd (update_response_status g_django t_1s example_response
         (fst (update_response_status g_django t_50ms example_response info_open)))
  = Ok tt
  /\ snd (JSONRequestLogFormatter_object g_django t_1s (0%nat, access_record info_open))
     = Raise (AttributeError "'RequestInfo' object has no attribute 'response_time_ms'").
Proof.
  destruct (second_finalize_overwrites_and_premature_format_raises g_django
              django_request_util t_50ms t_1s example_response example_response info_open
              (PInt 200) (PInt 1234) (PStr "application/json") g_django_request_util
              eq_refl eq_refl eq_refl) as [Hsecond Hpremature].
  split.
  - rewrite Hsecond. reflexivity.
  - destruct (Hpremature t_1s t_arrival 0%nat (access_record info_open)
                example_request eq_refl) as [_ Hraise].
    exact (Hraise django_request_adapter_total).
Defined.

Lemma example_record_props_wf :
  dict_wf [("level", PStr "AUDIT"); ("tenant", PStr "acme")].
Proof. apply (bool_decide_unpack _). vm_compute. exact I. Qed.

Lemma props_shadow_fixed_fields_witness :
  dict_get "level" (JSONLogFormatter_fixed t_arrival example_record) = Some (PStr "INFO")
  /\ dict_get "level" (JSONLogFormatter_object t_arrival example_record)
     = Some (PStr "AUDIT")
  /\ dict_get "msg" (JSONLogFormatter_object t_arrival example_record)
     = Some (PStr "order placed")
  /\ dict_get "tenant" (JSONLogFormatter_object t_arrival example_record)
     = Some (PStr "acme")
  /\ exists obj,
       snd (JSONLogWebFormatter_object g_ambient t_arrival example_record
              (0%nat, Some example_request)) = Ok obj
       /\ dict_get "level" obj = Some (PStr "AUDIT")
       /\ dict_get "correlation_id" obj = Some (PStr "req-42").
Proof.
  destruct (props_shadow_fixed_fields g_ambient t_arrival example_record
              [("level", PStr "AUDIT"); ("tenant", PStr "acme")]
              eq_refl example_record_props_wf) as [(_ & Hfixed & Hprops) Hweb].
  split; [reflexivity|]. split; [|split; [|split]].
  - rewrite Hfixed by (simpl; tauto). reflexivity.
  - rewrite Hfixed by (simpl; tauto). reflexivity.
  - apply Hprops; [reflexivity | discriminate | discriminate].
  - edestruct (Hweb {| request_adapter := ambient_request_adapter;
                       response_adapter := Django.response_adapter |}
                 (0%nat, Some example_request) 0%nat "req-42")
      as (obj & Hobj & _ & Hfixed' & _); [reflexivity | vm_compute; reflexivity |].
    exists obj. split; [exact Hobj|]. split.
    + rewrite Hfixed' by (simpl; tauto). reflexivity.
    + rewrite Hfixed' by (simpl; tauto). reflexivity.
Defined.

(** The web formatter's object for [example_record] while
    [example_request] is the ambient request. *)
Example web_log_example :
  snd (JSONLogWebFormatter_object g_ambient t_arrival example_record
         (0%nat, Some example_request))
  = Ok [("type", PStr "log");
        ("written_at", PStr "2000-01-01T00:00:00.000Z");
        ("written_ts", PInt 946684800000000000);
        ("component_id", PStr "-");
        ("component_name", PStr "-");
        ("component_instance", PInt 0);
        ("logger", PStr "orders");
        ("thread", PStr "MainThread");
        ("level", PStr "AUDIT");
        ("module", PStr "views");
        ("line_no", PInt 42);
        ("correlation_id", PStr "req-42");
        ("msg", PStr "order placed");
        ("tenant", PStr "acme")].
Proof. vm_compute. reflexivity. Qed.

(** With the Django adapter, which has no global request object, the web
    formatter raises the usage error. *)
Example web_log_django_raises :
  snd (JSONLogWebFormatter_object g_django t_arrival example_record (0%nat, None))
  = Raise (UsageError "framework does not support a global request object").
Proof. vm_compute. reflexivity. Qed.

Lemma format_twice_differs_in_timestamps_only_witness :
  JSON_SERIALIZER g_django
    (without_timestamps (JSONLogFormatter_object t_arrival example_record))
  = JSON_SERIALIZER g_django
      (without_timestamps (JSONLogFormatter_object t_1s example_record))
  /\ dict_get "written_ts" (JSONLogFormatter_object t_arrival example_record)
     = Some (PInt 946684800000000000)
  /\ dict_get "written_ts" (JSONLogFormatter_object t_1s example_record)
     = Some (PInt 946684801000000000).
Proof.
  destruct (format_twice_differs_in_timestamps_only g_django t_arrival t_1s example_record)
    as [Hrest Hstamps].
  split; [exact Hrest|].
  assert (Hp : forall p, props example_record = Some p ->
                 dict_get "written_at" p = None /\ dict_get "written_ts" p = None).
  { intros p Hprops. injection Hprops as <-. split; reflexivity. }
  split.
  - apply (Hstamps Hp t_arrival).
  - apply (Hstamps Hp t_1s).
Defined.

(** C7 as stated fails: the timestamps are not cached with the record.
    Formatting [example_record] at two clock readings a second apart gives
    two different [written_ts] values and two different outputs. *)
Lemma format_twice_recomputes_timestamps :
  dict_get "written_ts" (JSONLogFormatter_object t_arrival example_record)
  = Some (PInt 946684800000000000)
  /\ dict_get "written_ts" (JSONLogFormatter_object t_1s example_record)
     = Some (PInt 946684801000000000)
  /\ String.eqb (JSONLogFormatter_format g_django t_arrival example_record)
       (JSONLogFormatter_format g_django t_1s example_record) = false.
Proof. vm_compute. repeat split. Qed.

(** * Further properties of the code *)

(** ** Registration and initialisation *)

Section RegistryMore.
Context {Req Resp : Type}.
Implicit Types (g : globals Req Resp).

(** [register_framework_support] never touches the active framework or
    the request util. *)
Lemma register_keeps_active g (name : string) ac arc
    (rq : pyclass (RequestAdapter Req)) (rs : pyclass (ResponseAdapter Resp)) :
  _current_framework (fst (register_framework_support name ac arc rq rs g))
  = _current_framework g
  /\ _request_util (fst (register_framework_support name ac arc rq rs g))
     = _request_util g.
Proof.
  unfold register_framework_support, validate_subclass. py_unfold.
  destruct (str_truthy name); simpl; [|auto].
  destruct (issubclass rq _); simpl; [|auto].
  destruct (issubclass rs _); simpl; [|auto].
  destruct (issubclass arc _); simpl; [|auto].
  destruct ac as [c|]; simpl.
  - destruct (issubclass c _); simpl; [|auto].
    destruct (bool_decide _); simpl; auto.
  - destruct (bool_decide _); simpl; auto.
Qed.

(** X1: a registration that raises (empty name, or a class that fails its
    validation) has changed nothing: the validations all run before the
    registry is written and before the warning is logged. *)
Theorem register_failure_changes_nothing g (name : string) ac arc
    (rq : pyclass (RequestAdapter Req)) (rs : pyclass (ResponseAdapter Resp))
    (e : pyexc) :
  snd (register_framework_support name ac arc rq rs g) = Raise e ->
  fst (register_framework_support name ac arc rq rs g) = g.
Proof.
  unfold register_framework_support, validate_subclass. py_unfold.
  destruct (str_truthy name); simpl; [|reflexivity].
  destruct (issubclass rq _); simpl; [|reflexivity].
  destruct (issubclass rs _); simpl; [|reflexivity].
  destruct (issubclass arc _); simpl; [|reflexivity].
  destruct ac as [c|]; simpl.
  - destruct (issubclass c _); simpl; [|reflexivity].
    destruct (bool_decide _); simpl; discriminate.
  - destruct (bool_decide _); simpl; discriminate.
Qed.

(** Registration and [init] leave the settings read at import alone. *)
Lemma register_keeps_flag g (name : string) ac arc
    (rq : pyclass (RequestAdapter Req)) (rs : pyclass (ResponseAdapter Resp)) :
  ENABLE_JSON_LOGGING (fst (register_framework_support name ac arc rq rs g))
  = ENABLE_JSON_LOGGING g.
Proof.
  unfold register_framework_support, validate_subclass. py_unfold. py_cases; reflexivity.
Qed.

Lemma init_keeps_flag g (framework_name : option string)
    (custom_formatter : option (pyclass unit)) :
  ENABLE_JSON_LOGGING (fst (init framework_name custom_formatter g))
  = ENABLE_JSON_LOGGING g.
Proof. unfold init. py_unfold. py_cases; reflexivity. Qed.

(** X2: a framework registered under [name] is selected by [init] under
    any spelling [name'] that differs from it only in letter case,
    provided its classes can be brought up: the two adapter classes give
    instances and, with JSON logging enabled, the app configurator (if
    there is one) is constructed and its [config()] returns. Then [init]
    returns normally, the active framework is the registered binding and
    the request util holds the two instances. *)
Theorem register_then_init_selects g (name name' : string) ac arc
    (rq : pyclass (RequestAdapter Req)) (rs : pyclass (ResponseAdapter Resp))
    (custom_formatter : option (pyclass unit))
    (rq_instance : RequestAdapter Req) (rs_instance : ResponseAdapter Resp) :
  _current_framework g = None ->
  str_truthy name = true ->
  valid_classes ac arc rq rs ->
  lower name' = lower name ->
  cls_call rq = Ok rq_instance ->
  cls_call rs = Ok rs_instance ->
  (ENABLE_JSON_LOGGING g = true ->
   forall c, ac = Some c ->
     exists configurator, cls_call c = Ok configurator /\ config configurator = Ok tt) ->
  snd (init (Some name') custom_formatter
         (fst (register_framework_support name ac arc rq rs g))) = Ok tt
  /\ _current_framework
       (fst (init (Some name') custom_formatter
               (fst (register_framework_support name ac arc rq rs g))))
     = Some {| app_configurator := ac;
               app_request_instrumentation_configurator := arc;
               request_adapter_class := rq;
               response_adapter_class := rs |}
  /\ _request_util
       (fst (init (Some name') custom_formatter
               (fst (register_framework_support name ac arc rq rs g))))
     = Some {| request_adapter := rq_instance; response_adapter := rs_instance |}.
Proof.
  intros Hcur Hname Hvalid Hcase Hrq Hrs Hconfig.
  destruct (register_framework_support_ok g name ac arc rq rs Hname Hvalid)
    as (_ & Hmap & _ & Hcur' & _).
  pose proof (register_keeps_flag g name ac arc rq rs) as Hflag.
  set (g1 := fst (register_framework_support name ac arc rq rs g)) in *.
  assert (Hname' : str_truthy name' = true).
  { rewrite <- str_truthy_lower, Hcase, str_truthy_lower. exact Hname. }
  assert (Hlookup : _framework_support_map g1 !! lower name'
                    = Some {| app_configurator := ac;
                              app_request_instrumentation_configurator := arc;
                              request_adapter_class := rq;
                              response_adapter_class := rs |}).
  { rewrite Hmap, Hcase. apply lookup_insert_eq. }
  destruct (init_selects_registered g1 name'
              {| app_configurator := ac;
                 app_request_instrumentation_configurator := arc;
                 request_adapter_class := rq;
                 response_adapter_class := rs |}
              {| request_adapter := rq_instance; response_adapter := rs_instance |}
              custom_formatter) as (Hok & Hsel & Hru & _);
    [congruence | exact Hname' | exact Hlookup | | auto].
  split.
  - unfold RequestUtil_new. simpl. rewrite Hrq. simpl. rewrite Hrs. reflexivity.
  - rewrite Hflag. intros Hon. simpl. destruct ac as [c|]; [|exact I].
    apply (Hconfig Hon c eq_refl).
Qed.

(** What [init] does to the active framework and the request util: it
    leaves both alone, or it makes a registered binding the active
    framework and then sets the request util to the instances of that
    binding's adapter classes, unless their construction raises. *)
Lemma init_active g (framework_name : option string)
    (custom_formatter : option (pyclass unit)) :
  (_current_framework (fst (init framework_name custom_formatter g)) = _current_framework g
   /\ _request_util (fst (init framework_name custom_formatter g)) = _request_util g)
  \/ (exists b,
        _current_framework g = None
        /\ _current_framework (fst (init framework_name custom_formatter g)) = Some b
        /\ (_request_util (fst (init framework_name custom_formatter g)) = _request_util g
            \/ exists ru,
                 RequestUtil_new (request_adapter_class b) (response_adapter_class b) = Ok ru
                 /\ _request_util (fst (init framework_name custom_formatter g)) = Some ru)).
Proof.
  unfold init. py_unfold.
  destruct (_current_framework g) eqn:Hcur; simpl; [left; auto|].
  destruct (truthy_name framework_name); simpl.
  - destruct (_framework_support_map g !! _) as [b|]; simpl; [|left; auto].
    right. exists b. split; [reflexivity|].
    destruct (RequestUtil_new (request_adapter_class b) (response_adapter_class b))
      as [ru|e] eqn:Hru; simpl; [|auto].
    py_cases; (split; [reflexivity|]); right; exists ru; auto.
  - left. py_cases; auto.
Qed.

(** X3: in every state a process can reach by calls of
    [register_framework_support] and [init], whether they return or raise,
    the registry's keys are non-empty and lower-case, and the request util
    is set only while a framework is active, and then holds the instances
    of the active framework's adapter classes. *)
Theorem reachable_invariant g :
  reachable g ->
  registry_normalised (_framework_support_map g) /\ active_consistent g.
Proof.
  induction 1 as [e u d | g name ac arc rq rs Hreach [IHreg IHact]
                 | g fn cf Hreach [IHreg IHact]].
  - split; [apply registry_normalised_empty | exact I].
  - split; [apply registry_normalised_register; exact IHreg|].
    unfold active_consistent in *.
    destruct (register_keeps_active g name ac arc rq rs) as [-> ->]. exact IHact.
  - split; [rewrite init_keeps_registry; exact IHreg|].
    unfold active_consistent in *.
    destruct (init_active g fn cf)
      as [[-> ->] | (b & Hnone & Hcur & [Hru | (ru & Hnew & Hru)])]; [exact IHact | |].
    + rewrite Hru. destruct (_request_util g) as [ru|]; [|exact I].
      destruct IHact as (b' & Hb' & _). congruence.
    + rewrite Hru. exists b. auto.
Qed.

(** X4: once a framework is active, no later call changes it: not a
    second [init], and not a registration, even one that overwrites the
    registry entry the active framework was selected from. *)
Theorem active_framework_is_frozen g (b : FrameworkBinding Req Resp) :
  _current_framework g = Some b ->
  (forall (framework_name : option string) (custom_formatter : option (pyclass unit)),
     _current_framework (fst (init framework_name custom_formatter g)) = Some b
     /\ _request_util (fst (init framework_name custom_formatter g)) = _request_util g)
  /\ (forall (name : string) ac arc (rq : pyclass (RequestAdapter Req))
        (rs : pyclass (ResponseAdapter Resp)),
        _current_framework (fst (register_framework_support name ac arc rq rs g)) = Some b
        /\ _request_util (fst (register_framework_support name ac arc rq rs g))
           = _request_util g).
Proof.
  intros Hcur. split.
  - intros fn cf. destruct (init_active g fn cf) as [[-> ->] | (b' & Hnone & _)];
      [auto | congruence].
  - intros name ac arc rq rs.
    destruct (register_keeps_active g name ac arc rq rs) as [-> ->]. auto.
Qed.

(** X5: with a framework name, [init] never looks at [custom_formatter]:
    the web formatter is used, and a custom formatter, valid or not, makes
    no difference. *)
Theorem init_with_framework_ignores_custom_formatter g (framework_name : string)
    (custom_formatter : option (pyclass unit)) :
  str_truthy framework_name = true ->
  init (Some framework_name) custom_formatter g = init (Some framework_name) None g.
Proof.
  intros Hname. unfold init. py_unfold.
  destruct (_current_framework g); simpl; [reflexivity|].
  rewrite Hname. reflexivity.
Qed.

(** X6: an [init] that fails on an unregistered name leaves no framework
    active, so a later [init] with a registered name is not refused as a
    second call: when that binding's classes can be brought up it returns
    normally and selects the binding. *)
Theorem init_retry_after_unknown_framework g (unknown known : string)
    (b : FrameworkBinding Req Resp) (ru : RequestUtil Req Resp)
    (cf cf' : option (pyclass unit)) :
  _current_framework g = None ->
  str_truthy unknown = true ->
  _framework_support_map g !! lower unknown = None ->
  str_truthy known = true ->
  _framework_support_map g !! lower known = Some b ->
  binding_starts (ENABLE_JSON_LOGGING g) b ru ->
  snd (init (Some unknown) cf g)
  = Raise (RuntimeError (lower unknown +:+ "is not a supported framework"))
  /\ snd (init (Some known) cf' (fst (init (Some unknown) cf g))) = Ok tt
  /\ _current_framework (fst (init (Some known) cf' (fst (init (Some unknown) cf g))))
     = Some b
  /\ _request_util (fst (init (Some known) cf' (fst (init (Some unknown) cf g))))
     = Some ru.
Proof.
  intros Hcur Hu Hnone Hk Hsome Hstarts.
  destruct (init_unknown_framework g unknown cf Hcur Hu Hnone) as [Hraise Hcur1].
  split; [exact Hraise|].
  destruct (init_selects_registered (fst (init (Some unknown) cf g)) known b ru cf' Hcur1 Hk)
    as (Hok & Hsel & Hru & _).
  - rewrite init_keeps_registry. exact Hsome.
  - rewrite init_keeps_flag. exact Hstarts.
  - auto.
Qed.

(** X7: with [ENABLE_JSON_LOGGING] off, an [init] that is not refused
    (no framework active yet; the named framework registered and its
    adapter classes giving instances, or no name and a custom formatter
    that is a [logging.Formatter] subclass, or neither) returns normally
    and what it does outside the module is exactly this, in this order:
    the info record, the warning that JSON format is not enabled, the
    debug record, and the call of [util.update_formatter_for_loggers] on
    the existing loggers with the formatter class it selected. So it sets
    no default formatter on [logging], constructs no formatter and runs no
    app configurator, even when the binding has one, but the selected
    formatter class is still handed to every existing logger. *)
Theorem init_disabled_still_updates_loggers g (framework_name : option string)
    (custom_formatter : option (pyclass unit)) :
  ENABLE_JSON_LOGGING g = false ->
  _current_framework g = None ->
  (if truthy_name framework_name
   then exists b ru,
          _framework_support_map g !! lower (str_of_name framework_name) = Some b
          /\ RequestUtil_new (request_adapter_class b) (response_adapter_class b) = Ok ru
   else forall c, custom_formatter = Some c -> issubclass c "Formatter" = true) ->
  snd (init framework_name custom_formatter g) = Ok tt
  /\ emitted (fst (init framework_name custom_formatter g))
     = (emitted g
        ++ [Log INFO ("init framework " +:+ str_of_name framework_name);
            Log WARNING "JSON format is not enable! To enable set ENABLE_JSON_LOGGING env var to either one of following values: ['true', '1', 'y', 'yes']";
            Log DEBUG "Update all existing logger to using JSONLogFormatter";
            UpdateFormatterForLoggers
              (if truthy_name framework_name then JSONLogWebFormatter
               else match custom_formatter with
                    | Some c => CustomFormatter (cls_name c)
                    | None => JSONLogFormatter
                    end)])%list.
Proof.
  intros Hoff Hcur Haccepted. unfold init. py_unfold. rewrite Hcur. simpl.
  destruct (truthy_name framework_name); simpl.
  - destruct Haccepted as (b & ru & -> & Hru). simpl. rewrite Hru. simpl.
    rewrite Hoff. simpl. rewrite <- !app_assoc. simpl. auto.
  - destruct custom_formatter as [c|]; simpl.
    + rewrite (Haccepted c eq_refl). simpl. rewrite Hoff. simpl.
      rewrite <- !app_assoc. simpl. auto.
    + rewrite Hoff. simpl. rewrite <- !app_assoc. simpl. auto.
Qed.

(** With a framework active, [init] is refused at its first statement. *)
Lemma init_refused g (framework_name : option string)
    (custom_formatter : option (pyclass unit)) (b : FrameworkBinding Req Resp) :
  _current_framework g = Some b ->
  init framework_name custom_formatter g
  = (g, Raise (RuntimeError "Can not call init more than once")).
Proof. intros Hcur. unfold init. py_unfold. rewrite Hcur. reflexivity. Qed.

(** X21: when the constructor of one of the named framework's adapter
    classes raises, [init] raises that exception after it has made the
    framework active and before it sets the request util. The failed
    call is not undone: the framework stays active without a request
    util, and every later [init] is refused as a second call. *)
Theorem init_failed_adapter_blocks_retry g (name : string)
    (b : FrameworkBinding Req Resp) (e : pyexc) (custom_formatter : option (pyclass unit)) :
  _current_framework g = None ->
  str_truthy name = true ->
  _framework_support_map g !! lower name = Some b ->
  RequestUtil_new (request_adapter_class b) (response_adapter_class b) = Raise e ->
  snd (init (Some name) custom_formatter g) = Raise e
  /\ _current_framework (fst (init (Some name) custom_formatter g)) = Some b
  /\ _request_util (fst (init (Some name) custom_formatter g)) = _request_util g
  /\ forall (framework_name' : option string) (custom_formatter' : option (pyclass unit)),
       init framework_name' custom_formatter' (fst (init (Some name) custom_formatter g))
       = (fst (init (Some name) custom_formatter g),
          Raise (RuntimeError "Can not call init more than once")).
Proof.
  intros Hcur Hname Hb Hraise.
  assert (Hinit : snd (init (Some name) custom_formatter g) = Raise e
                  /\ _current_framework (fst (init (Some name) custom_formatter g)) = Some b
                  /\ _request_util (fst (init (Some name) custom_formatter g))
                     = _request_util g).
  { unfold init. py_unfold. rewrite Hcur. simpl. rewrite Hname. simpl.
    rewrite Hb. simpl. rewrite Hraise. simpl. auto. }
  destruct Hinit as (Hsnd & Hactive & Hru). repeat split; try assumption.
  intros fn' cf'. apply (init_refused _ fn' cf' b Hactive).
Qed.

End RegistryMore.

Section InstrumentMore.
Context {U : Util} {Req Resp App : Type}.
Implicit Types (g : globals Req Resp).

(** [init] without a framework name selects nothing. *)
Lemma init_non_web_selects_nothing g (framework_name : option string)
    (custom_formatter : option (pyclass unit)) :
  truthy_name framework_name = false ->
  _current_framework (fst (init framework_name custom_formatter g)) = _current_framework g
  /\ _request_util (fst (init framework_name custom_formatter g)) = _request_util g.
Proof.
  intros Hname. unfold init. py_unfold. rewrite Hname.
  destruct (_current_framework g) eqn:Hcur; simpl; [auto|].
  py_cases; auto.
Qed.

(** X8: [init] in non-web mode (no framework name, or an empty one) does
    not enable request instrumentation: [init_request_instrument] still
    raises its [RuntimeError] afterwards, without calling the
    configurator. *)
Theorem init_request_instrument_needs_framework g
    (config : pyclass unit -> App -> result (list string)) (app : App)
    (framework_name : option string) (custom_formatter : option (pyclass unit)) :
  _current_framework g = None ->
  truthy_name framework_name = false ->
  init_request_instrument config app (fst (init framework_name custom_formatter g))
  = Raise (RuntimeError "please init the logging first, call init(framework_name) first").
Proof.
  intros Hcur Hname. unfold init_request_instrument.
  destruct (init_non_web_selects_nothing g framework_name custom_formatter Hname)
    as [-> _].
  rewrite Hcur. reflexivity.
Qed.

(** X9: in non-web mode there is no request util either, so
    [update_response_status] raises [AttributeError] and assigns nothing,
    and the access-log formatter raises before it reads the request. *)
Theorem non_web_mode_has_no_request_util g (framework_name : option string)
    (custom_formatter : option (pyclass unit)) (utcnow : datetime) (response : Resp)
    (info : RequestInfo Req) (n : nat) (record : LogRecord Req) :
  _request_util g = None ->
  truthy_name framework_name = false ->
  request_info record = Some info ->
  update_response_status (fst (init framework_name custom_formatter g)) utcnow response info
  = (info, Raise (AttributeError "'NoneType' object has no attribute 'response_adapter'"))
  /\ JSONRequestLogFormatter_object (fst (init framework_name custom_formatter g)) utcnow
       (n, record)
     = ((n, record),
        Raise (AttributeError "'NoneType' object has no attribute 'request_adapter'")).
Proof.
  intros Hru Hname Hinfo.
  destruct (init_non_web_selects_nothing g framework_name custom_formatter Hname)
    as [_ Hru'].
  rewrite Hru in Hru'. split.
  - apply update_response_status_uninitialised. exact Hru'.
  - unfold JSONRequestLogFormatter_object, getattr. py_unfold. simpl.
    rewrite Hinfo, Hru'. reflexivity.
Qed.

End InstrumentMore.

(** ** The Django request adapter, further *)

Lemma ascii_upper_lower (c : ascii) : ascii_upper (ascii_lower c) = ascii_upper c.
Proof. destruct c as [[] [] [] [] [] [] [] []]; reflexivity. Qed.

Lemma ascii_upper_idempotent (c : ascii) : ascii_upper (ascii_upper c) = ascii_upper c.
Proof. destruct c as [[] [] [] [] [] [] [] []]; reflexivity. Qed.

Lemma ascii_dash_underscore (c : ascii) :
  (if Ascii.eqb (ascii_upper (if Ascii.eqb c "_" then "-"%char else c)) "-"
   then "_"%char else ascii_upper (if Ascii.eqb c "_" then "-"%char else c))
  = (if Ascii.eqb (ascii_upper c) "-" then "_"%char else ascii_upper c).
Proof. destruct c as [[] [] [] [] [] [] [] []]; reflexivity. Qed.

Lemma str_map_ext (f f' : ascii -> ascii) (s : string) :
  (forall c, f c = f' c) -> str_map f s = str_map f' s.
Proof. intros H. induction s as [|c s IH]; simpl; [reflexivity | rewrite H, IH; reflexivity]. Qed.

Lemma str_map_compose (f f' : ascii -> ascii) (s : string) :
  str_map f (str_map f' s) = str_map (fun c => f (f' c)) s.
Proof. induction s as [|c s IH]; simpl; [reflexivity | rewrite IH; reflexivity]. Qed.

(** X10: the Django adapter finds a header whatever the letter case of
    the name it is asked for, and whether the name is written with dashes
    or with underscores. *)
Theorem django_header_name_insensitive (r : Django.HttpRequest) (h dflt : string) :
  Django.DjangoRequestAdapter.get_http_header r (lower h) dflt
  = Django.DjangoRequestAdapter.get_http_header r h dflt
  /\ Django.DjangoRequestAdapter.get_http_header r (upper h) dflt
     = Django.DjangoRequestAdapter.get_http_header r h dflt
  /\ Django.DjangoRequestAdapter.get_http_header r (replace_char "_" "-" h) dflt
     = Django.DjangoRequestAdapter.get_http_header r h dflt.
Proof.
  unfold Django.DjangoRequestAdapter.get_http_header, Django.header_name_converted,
    replace_char, upper, lower.
  repeat split; do 3 f_equal; rewrite !str_map_compose; apply str_map_ext; intros c.
  - rewrite ascii_upper_lower. reflexivity.
  - rewrite ascii_upper_idempotent. reflexivity.
  - apply ascii_dash_underscore.
Qed.

(** X11: storing a correlation id changes nothing else the adapter
    reports about the request: user, protocol, path, content length,
    method, remote address, and every header other than the correlation
    id's own. *)
Theorem django_set_correlation_id_preserves_facts (r : Django.HttpRequest)
    (v h dflt : string) :
  let r' := Django.DjangoRequestAdapter.set_correlation_id r v in
  Django.DjangoRequestAdapter.get_remote_user r'
  = Django.DjangoRequestAdapter.get_remote_user r
  /\ Django.DjangoRequestAdapter.get_protocol r'
     = Django.DjangoRequestAdapter.get_protocol r
  /\ Django.DjangoRequestAdapter.get_path r' = Django.DjangoRequestAdapter.get_path r
  /\ Django.DjangoRequestAdapter.get_content_length r'
     = Django.DjangoRequestAdapter.get_content_length r
  /\ Django.DjangoRequestAdapter.get_method r' = Django.DjangoRequestAdapter.get_method r
  /\ Django.DjangoRequestAdapter.get_remote_ip r'
     = Django.DjangoRequestAdapter.get_remote_ip r
  /\ (Django.header_name_converted h <> "HTTP_X_CORRELATION_ID" ->
      Django.DjangoRequestAdapter.get_http_header r' h dflt
      = Django.DjangoRequestAdapter.get_http_header r h dflt).
Proof.
  cbv zeta.
  unfold Django.DjangoRequestAdapter.get_protocol,
    Django.DjangoRequestAdapter.get_content_length,
    Django.DjangoRequestAdapter.get_remote_ip,
    Django.DjangoRequestAdapter.get_http_header.
  rewrite !django_set_correlation_id_frame by discriminate.
  repeat split.
  intros Hne. rewrite django_set_correlation_id_frame by exact Hne. reflexivity.
Qed.

(** ** The clock stepping back *)

Lemma int_truediv_opp (n d : Z) :
  int_of_float (int_truediv (- n) d) = - int_of_float (int_truediv n d).
Proof.
  unfold int_truediv. destruct (Z.eqb_spec n 0) as [->|Hn]; [reflexivity|].
  destruct (Z.eqb_spec (- n) 0) as [Hz|_]; [lia|].
  rewrite Z.abs_opp, Z.sgn_opp.
  destruct (scaled (Z.abs n) d (Z.max (binade (Z.abs n) d) (-1074))) as [a b].
  unfold int_of_float. simpl.
  destruct (Z.leb_spec 0 (Z.max (binade (Z.abs n) d) (-1074))).
  - ring.
  - rewrite Z.mul_opp_l. apply Z.quot_opp_l.
    apply Z.pow_nonzero; lia.
Qed.

(** [int(n / d)] truncates toward zero on both sides of zero, within the
    range of [int_truediv_floor]. *)
Lemma int_truediv_quot (n d k : Z) :
  0 < d -> 0 <= k <= 51 -> Z.abs n < d * 2 ^ k -> d < 2 ^ (54 - k) ->
  int_of_float (int_truediv n d) = Z.quot n d.
Proof.
  intros Hd Hk Hn Hdk. destruct (Z_le_gt_dec 0 n) as [Hpos|Hneg].
  - rewrite (int_truediv_floor n d k) by lia. symmetry. apply Z.quot_div_nonneg; lia.
  - replace n with (- (- n)) at 1 by lia. rewrite int_truediv_opp.
    rewrite (int_truediv_floor (- n) d k) by lia.
    rewrite <- Z.quot_div_nonneg by lia.
    rewrite Z.quot_opp_l by lia. lia.
Qed.

(** On a normalised [timedelta] of less than 2^34 seconds, of either
    sign, the source's expression is the whole seconds truncated toward
    zero, in milliseconds, plus the milliseconds of the (non-negative)
    microsecond field. *)
Lemma elapsed_ms_quot (td : timedelta) :
  0 <= microseconds td < 1000000 ->
  Z.abs (total_microseconds td) < 2 ^ 34 * 1000000 ->
  elapsed_ms td
  = Z.quot (total_microseconds td) 1000000 * 1000 + microseconds td / 1000.
Proof.
  intros Hus Htot. unfold elapsed_ms, total_seconds.
  rewrite (int_truediv_quot (total_microseconds td) 1000000 34) by lia.
  rewrite (int_truediv_floor (microseconds td) 1000 10) by lia.
  reflexivity.
Qed.

Section ClockStepsBack.
Context {U : Util} {Req Resp : Type}.
Implicit Types (g : globals Req Resp).

(** X12: when the clock reading at completion lies before the one at
    arrival (the wall clock was set back) by a duration that is not a whole
    number of seconds, [response_time_ms] is 1000 more than the elapsed
    time in milliseconds rounded down: a step back of 1 ms is recorded as
    999 ms. *)
Theorem response_time_ms_when_clock_steps_back g (ru : RequestUtil Req Resp)
    (arrival completion : datetime) (request : Req) (response : Resp) :
  _request_util g = Some ru ->
  - (2 ^ 34 * 1000000) < elapsed_microseconds arrival completion < 0 ->
  elapsed_microseconds arrival completion mod 1000000 <> 0 ->
  response_time_ms
    (fst (update_response_status g completion response (RequestInfo_new arrival request)))
  = Some (elapsed_microseconds arrival completion / 1000 + 1000).
Proof.
  intros Hru Hel Hfrac. rewrite (update_response_status_time g ru) by exact Hru.
  simpl. f_equal. rewrite <- datetime_sub_total in *.
  pose proof (timedelta_new_microseconds_range
                (toordinal completion - toordinal arrival)
                (second completion + minute completion * 60 + hour completion * 3600
                 - (second arrival + minute arrival * 60 + hour arrival * 3600))
                (microsecond completion - microsecond arrival)) as Hus.
  fold (datetime_sub completion arrival) in Hus.
  set (td := datetime_sub completion arrival) in *.
  rewrite elapsed_ms_quot by lia.
  unfold total_microseconds in *.
  set (w := days td * 86400 + seconds td) in *.
  set (u := microseconds td) in *.
  assert (Hmod : (w * 1000000 + u) mod 1000000 = u).
  { rewrite Z.add_comm, Z.mod_add by lia. apply Z.mod_small. lia. }
  rewrite Hmod in Hfrac.
  assert (Hquot : Z.quot (w * 1000000 + u) 1000000 = w + 1).
  { replace (w * 1000000 + u) with (- ((1000000 - u) + (- w - 1) * 1000000)) by lia.
    rewrite Z.quot_opp_l by lia. rewrite Z.quot_div_nonneg by lia.
    rewrite Z.div_add by lia. rewrite Z.div_small by lia. lia. }
  rewrite Hquot.
  replace (w * 1000000 + u) with (u + (w * 1000) * 1000) by lia.
  rewrite Z.div_add by lia. lia.
Qed.

(** X13: when the response adapter raises on the content type, after
    having reported status and size, [update_response_status] lets the
    exception out with the context half updated: time, status and size are
    assigned, content type and [response_sent_at] are not; formatting that
    context then raises as well when the context was fresh. *)
Theorem update_response_status_partial g (ru : RequestUtil Req Resp)
    (utcnow : datetime) (response : Resp) (info : RequestInfo Req)
    (status size : pyval) (e : pyexc) :
  _request_util g = Some ru ->
  get_status_code (response_adapter ru) response = Ok status ->
  get_response_size (response_adapter ru) response = Ok size ->
  get_content_type (response_adapter ru) response = Raise e ->
  update_response_status g utcnow response info
  = ({| request_start := request_start info;
        request := request info;
        request_received_at := request_received_at info;
        response_time_ms := Some (elapsed_ms (datetime_sub utcnow (request_start info)));
        response_status := Some status;
        response_size_b := Some size;
        response_content_type := response_content_type info;
        response_sent_at := response_sent_at info |}, Raise e)
  /\ (response_content_type info = None ->
      forall (utcnow' : datetime) (n : nat) (record : LogRecord Req),
        request_info record = Some (fst (update_response_status g utcnow response info)) ->
        is_ok (snd (JSONRequestLogFormatter_object g utcnow' (n, record))) = false).
Proof.
  intros Hru Hst Hsz Hct.
  assert (Hupd : update_response_status g utcnow response info
    = ({| request_start := request_start info;
          request := request info;
          request_received_at := request_received_at info;
          response_time_ms := Some (elapsed_ms (datetime_sub utcnow (request_start info)));
          response_status := Some status;
          response_size_b := Some size;
          response_content_type := response_content_type info;
          response_sent_at := response_sent_at info |}, Raise e)).
  { unfold update_response_status, getattr. py_unfold.
    rewrite Hru. simpl. rewrite Hst. simpl. rewrite Hsz. simpl. rewrite Hct. reflexivity. }
  split; [exact Hupd|].
  intros Hnone utcnow' n record Hinfo. rewrite Hupd in Hinfo. simpl in Hinfo.
  destruct (JSONRequestLogFormatter_object g utcnow' (n, record)) as [s' [obj|e']] eqn:H;
    [|reflexivity].
  apply JSONRequestLogFormatter_object_inv in H
    as (info' & ? & ? & ? & ct & ? & Hinfo' & _ & _ & _ & Hct' & _).
  rewrite Hinfo in Hinfo'. injection Hinfo' as <-. simpl in Hct'. congruence.
Qed.

End ClockStepsBack.

(** ** The log formatters, further *)

Section LogFormatterMore.
Context {U : Util} {Req Resp : Type}.
Implicit Types (g : globals Req Resp) (record : LogRecord Req).

(** X14: whatever [props] and the exception fields add or shadow, the
    object a log formatter hands to the serializer starts with the fixed
    keys, in the order of the dict literal: twelve for the plain
    formatter, thirteen (with [correlation_id] before [msg], and [module]
    before [line_no]) for the web formatter. *)
Theorem fixed_keys_lead_the_object g (utcnow : datetime) record :
  (exists rest,
     dict_keys (JSONLogFormatter_object utcnow record)
     = (["type"; "written_at"; "written_ts"; "component_id"; "component_name";
         "component_instance"; "logger"; "thread"; "level"; "line_no"; "module"; "msg"]
        ++ rest)%list)
  /\ forall (s s' : nat * option Req) (obj : pydict),
       JSONLogWebFormatter_object g utcnow record s = (s', Ok obj) ->
       exists rest,
         dict_keys obj
         = (["type"; "written_at"; "written_ts"; "component_id"; "component_name";
             "component_instance"; "logger"; "thread"; "level"; "module"; "line_no";
             "correlation_id"; "msg"] ++ rest)%list.
Proof.
  split.
  - apply (merge_props_and_exc_keys record (JSONLogFormatter_fixed utcnow record)).
  - intros s s' obj Hobj. apply JSONLogWebFormatter_object_inv in Hobj as [cid ->].
    apply (merge_props_and_exc_keys record (JSONLogWebFormatter_fixed utcnow record cid)).
Qed.

(** X15: a record without exception info and without exception text (or
    with an empty one) gets no [exc_info] and no [filename] key from the
    formatter: the object holds them only if [props] does. *)
Theorem no_exception_no_exc_fields (utcnow : datetime) record :
  exc_info record = None ->
  exc_text record = None \/ exc_text record = Some "" ->
  (forall p, props record = Some p ->
     dict_get "exc_info" p = None /\ dict_get "filename" p = None) ->
  dict_get "exc_info" (JSONLogFormatter_object utcnow record) = None
  /\ dict_get "filename" (JSONLogFormatter_object utcnow record) = None.
Proof.
  intros Hinfo Htext Hp.
  assert (Hexc : has_exc record = false).
  { unfold has_exc. rewrite Hinfo. destruct Htext as [-> | ->]; reflexivity. }
  unfold JSONLogFormatter_object, merge_props_and_exc. rewrite Hexc.
  destruct (props record) as [p|] eqn:Hprops; [|split; reflexivity].
  destruct (Hp p eq_refl) as [H1 H2].
  rewrite !dict_get_update_None by assumption. split; reflexivity.
Qed.

(** X16: when the record carries exception info or a non-empty exception
    text, the formatter sets [exc_info] and [filename] after it has merged
    [props], so [props] cannot shadow them; [exc_info] is the rendered
    traceback when the record has exception info, and the cached text
    only otherwise. *)
Theorem exception_fields_override_props (utcnow : datetime) record :
  has_exc record = true ->
  dict_get "exc_info" (JSONLogFormatter_object utcnow record)
  = Some match exc_info record with
         | Some lines => PStr (format_exception lines)
         | None => opt_str (exc_text record)
         end
  /\ dict_get "filename" (JSONLogFormatter_object utcnow record)
     = Some (PStr (filename record)).
Proof.
  intros Hexc. unfold JSONLogFormatter_object, merge_props_and_exc. rewrite Hexc.
  assert (Hwf : dict_wf (get_exc_fields record)).
  { unfold dict_wf, get_exc_fields. simpl.
    apply (bool_decide_unpack _). vm_compute. exact I. }
  rewrite !dict_get_update by exact Hwf. split; reflexivity.
Qed.

Lemma fixed_fields_agree (utcnow : datetime) record (correlation_id k : string) :
  k <> "correlation_id" ->
  dict_get k (JSONLogWebFormatter_fixed utcnow record correlation_id)
  = dict_get k (JSONLogFormatter_fixed utcnow record).
Proof.
  intros Hne. simpl.
  repeat match goal with
  | |- context [String.eqb k ?s] =>
      destruct (String.eqb_spec k s) as [->|?]; simpl; try reflexivity; try congruence
  end.
Qed.

(** X17: on one record and one clock reading, the web formatter's object
    and the plain formatter's hold the same value under every key other
    than [correlation_id]; the two differ only in that field and in the
    order of [module] and [line_no]. *)
Theorem web_object_agrees_with_plain g (utcnow : datetime) record
    (s s' : nat * option Req) (obj : pydict) (k : string) :
  JSONLogWebFormatter_object g utcnow record s = (s', Ok obj) ->
  k <> "correlation_id" ->
  dict_get k obj = dict_get k (JSONLogFormatter_object utcnow record).
Proof.
  intros Hobj Hne. apply JSONLogWebFormatter_object_inv in Hobj as [cid ->].
  unfold JSONLogFormatter_object, merge_props_and_exc.
  pose proof (fixed_fields_agree utcnow record cid k Hne) as Hfixed.
  assert (Hprops : dict_get k match props record with
                              | Some p =>
                                  dict_update (JSONLogWebFormatter_fixed utcnow record cid) p
                              | None => JSONLogWebFormatter_fixed utcnow record cid
                              end
                   = dict_get k match props record with
                                | Some p => dict_update (JSONLogFormatter_fixed utcnow record) p
                                | None => JSONLogFormatter_fixed utcnow record
                                end).
  { destruct (props record) as [p|]; [apply dict_get_update_congr|]; exact Hfixed. }
  destruct (has_exc record); [apply dict_get_update_congr|]; exact Hprops.
Qed.

End LogFormatterMore.

(** ** The Django response in the access log, and the middleware *)

Section DjangoResponseMore.
Context {U : Util} {Req : Type}.
Implicit Types (g : globals Req Django.HttpResponse) (record : LogRecord Req).

(** X18: with the Django response adapter, the response fields of the
    access log are read off the response as follows: the status is
    [status_code]; the content type is the [Content-Type] header; the size
    is the [Content-Length] header as the string it is, when there is one,
    else the stream position [tell()] gives, as a number, else (on
    [OSError]) the sentinel. *)
Theorem django_response_in_access_log g (ru : RequestUtil Req Django.HttpResponse)
    (arrival completion utcnow : datetime) (r : Req) (response : Django.HttpResponse)
    (content_type : string) (n : nat) record :
  _request_util g = Some ru ->
  request_adapter_total (request_adapter ru) ->
  response_adapter ru = Django.response_adapter ->
  Django.header response "Content-Type" = Some content_type ->
  (forall e, Django.tell response = Raise e -> e = OSError) ->
  request_info record
  = Some (fst (update_response_status g completion response (RequestInfo_new arrival r))) ->
  exists s' obj,
    JSONRequestLogFormatter_object g utcnow (n, record) = (s', Ok obj)
    /\ dict_get "response_status" obj = Some (PInt (Django.status_code response))
    /\ dict_get "response_content_type" obj = Some (PStr content_type)
    /\ dict_get "response_size_b" obj
       = Some match Django.header response "Content-Length" with
              | Some v => PStr v
              | None =>
                  match Django.tell response with
                  | Ok pos => PInt pos
                  | Raise _ => PStr EMPTY_VALUE
                  end
              end.
Proof.
  intros Hru Htot Hra Hct Htell Hinfo.
  set (size := match Django.header response "Content-Length" with
               | Some v => PStr v
               | None =>
                   match Django.tell response with
                   | Ok pos => PInt pos
                   | Raise _ => PStr EMPTY_VALUE
                   end
               end).
  assert (Hsize : get_response_size (response_adapter ru) response = Ok size).
  { rewrite Hra. simpl. unfold Django.DjangoResponseAdapter.get_response_size, size.
    destruct (Django.header response "Content-Length"); [reflexivity|].
    destruct (Django.tell response) as [pos|e] eqn:Ht; [reflexivity|].
    rewrite (Htell e eq_refl). reflexivity. }
  assert (Hstatus : get_status_code (response_adapter ru) response
                    = Ok (PInt (Django.status_code response)))
    by (rewrite Hra; reflexivity).
  assert (Hctype : get_content_type (response_adapter ru) response
                   = Ok (PStr content_type)).
  { rewrite Hra. simpl. unfold Django.DjangoResponseAdapter.get_content_type.
    rewrite Hct. reflexivity. }
  rewrite (update_response_status_ok g ru completion response _ _ _ _
             Hru Hstatus Hsize Hctype) in Hinfo.
  simpl in Hinfo.
  pose proof (access_log_total g ru utcnow n record _ _ _ _ _ _
                Hru Htot Hinfo eq_refl eq_refl eq_refl eq_refl eq_refl) as Hok.
  destruct (JSONRequestLogFormatter_object g utcnow (n, record)) as [s' [obj|e]] eqn:Hobj;
    [|discriminate].
  exists s', obj. split; [reflexivity|].
  apply JSONRequestLogFormatter_object_inv in Hobj
    as (info & ms & st & sz & ct & sent_at & Hinfo' & _ & Hst' & Hsz' & Hct' & _
        & _ & Gst & Gsz & Gct & _).
  rewrite Hinfo in Hinfo'. injection Hinfo' as <-. simpl in *.
  rewrite Gst, Gsz, Gct. repeat split; congruence.
Qed.

End DjangoResponseMore.

Section MiddlewareFacts.
Context {U : Util}.
Implicit Types (g : globals Django.HttpRequest Django.HttpResponse).

(** X19: a middleware as [Middleware(get_response)] builds it never
    returns the response and never hands a context to the request logger:
    [__init__] assigns no [request_logger], so when the wrapped handler
    and the response adapter answer, the call finalizes the context and
    then raises [AttributeError] at [self.request_logger]. *)
Theorem middleware_never_logs g (utcnow0 utcnow1 : datetime)
    (handler : Django.HttpRequest -> result Django.HttpResponse)
    (request : Django.HttpRequest)
    (s : option (RequestInfo Django.HttpRequest) * list (RequestInfo Django.HttpRequest)) :
  is_ok (snd (Middleware_call g utcnow0 utcnow1 (Middleware_new handler) request s)) = false
  /\ snd (fst (Middleware_call g utcnow0 utcnow1 (Middleware_new handler) request s)) = snd s
  /\ forall (ru : RequestUtil Django.HttpRequest Django.HttpResponse)
       (response : Django.HttpResponse) (status size content_type : pyval),
       _request_util g = Some ru ->
       handler request = Ok response ->
       get_status_code (response_adapter ru) response = Ok status ->
       get_response_size (response_adapter ru) response = Ok size ->
       get_content_type (response_adapter ru) response = Ok content_type ->
       Middleware_call g utcnow0 utcnow1 (Middleware_new handler) request s
       = ((Some (fst (update_response_status g utcnow1 response
                        (RequestInfo_new utcnow0 request))), snd s),
          Raise (AttributeError "'Middleware' object has no attribute 'request_logger'")).
Proof.
  unfold Middleware_call, Middleware_new, getattr. py_unfold. simpl.
  split; [|split].
  - destruct (handler request) as [response|e]; simpl; [|reflexivity].
    destruct (update_response_status g utcnow1 response _) as [info [[]|e]]; reflexivity.
  - destruct (handler request) as [response|e]; simpl; [|reflexivity].
    destruct (update_response_status g utcnow1 response _) as [info [[]|e]]; reflexivity.
  - intros ru response status size content_type Hru Hresp Hst Hsz Hct.
    rewrite Hresp. simpl.
    rewrite (update_response_status_ok g ru utcnow1 response _ status size content_type
               Hru Hst Hsz Hct).
    reflexivity.
Qed.

End MiddlewareFacts.

(** ** The further properties, on concrete inputs *)

Lemma register_failure_changes_nothing_witness :
  snd (register_framework_support "django" None
         DjangoAppRequestInstrumentationConfigurator_class
         NotAnAdapter_class DjangoResponseAdapter_class g_registered)
  = Raise (RuntimeError "dict is not a subclass of RequestAdapter")
  /\ fst (register_framework_support "django" None
            DjangoAppRequestInstrumentationConfigurator_class
            NotAnAdapter_class DjangoResponseAdapter_class g_registered)
     = g_registered.
Proof.
  assert (Hraise : snd (register_framework_support "django" None
                          DjangoAppRequestInstrumentationConfigurator_class
                          NotAnAdapter_class DjangoResponseAdapter_class g_registered)
                   = Raise (RuntimeError "dict is not a subclass of RequestAdapter"))
    by reflexivity.
  split; [exact Hraise|].
  exact (register_failure_changes_nothing g_registered "django" None
           DjangoAppRequestInstrumentationConfigurator_class
           NotAnAdapter_class DjangoResponseAdapter_class _ Hraise).
Defined.

Lemma register_then_init_selects_witness :
  lower "DJANGO" = lower "Django"
  /\ snd (init (Some "DJANGO") None
            (fst (register_framework_support "Django" None
                    DjangoAppRequestInstrumentationConfigurator_class
                    DjangoRequestAdapter_class DjangoResponseAdapter_class
                    (initial_globals true example_uuid1 example_dumps))))
     = Ok tt
  /\ _current_framework
       (fst (init (Some "DJANGO") None
               (fst (register_framework_support "Django" None
                       DjangoAppRequestInstrumentationConfigurator_class
                       DjangoRequestAdapter_class DjangoResponseAdapter_class
                       (initial_globals true example_uuid1 example_dumps)))))
     = Some django_binding
  /\ _request_util
       (fst (init (Some "DJANGO") None
               (fst (register_framework_support "Django" None
                       DjangoAppRequestInstrumentationConfigurator_class
                       DjangoRequestAdapter_class DjangoResponseAdapter_class
                       (initial_globals true example_uuid1 example_dumps)))))
     = Some django_request_util.
Proof.
  split; [reflexivity|].
  apply (register_then_init_selects
           (initial_globals true example_uuid1 example_dumps) "Django" "DJANGO" None
           DjangoAppRequestInstrumentationConfigurator_class
           DjangoRequestAdapter_class DjangoResponseAdapter_class None
           Django.request_adapter Django.response_adapter);
    [reflexivity | reflexivity | repeat split | reflexivity | reflexivity | reflexivity
    | intros _ c Hc; discriminate Hc].
Defined.

Lemma g_django_reachable : reachable g_django.
Proof.
  unfold g_django, g_registered, register_django.
  apply reachable_init, reachable_register, reachable_initial.
Qed.

Lemma reachable_invariant_witness :
  reachable g_django
  /\ registry_normalised (_framework_support_map g_django)
  /\ active_consistent g_django.
Proof.
  split; [exact g_django_reachable|].
  exact (reachable_invariant g_django g_django_reachable).
Defined.

Lemma active_framework_is_frozen_witness :
  _current_framework g_django = Some django_binding
  /\ _framework_support_map
       (fst (register_framework_support "django" None
               DjangoAppRequestInstrumentationConfigurator_class
               OverrideRequestAdapter_class DjangoResponseAdapter_class g_django))
     !! "django"
     <> Some django_binding
  /\ _current_framework
       (fst (register_framework_support "django" None
               DjangoAppRequestInstrumentationConfigurator_class
               OverrideRequestAdapter_class DjangoResponseAdapter_class g_django))
     = Some django_binding.
Proof.
  split; [exact g_django_current|]. split.
  - vm_compute. discriminate.
  - destruct (active_framework_is_frozen g_django django_binding g_django_current)
      as [_ Hreg].
    apply Hreg.
Defined.

Lemma init_with_framework_ignores_custom_formatter_witness :
  str_truthy "django" = true
  /\ issubclass NotAFormatter_class "Formatter" = false
  /\ init (Some "django") (Some NotAFormatter_class) g_registered
     = init (Some "django") None g_registered
  /\ snd (init (Some "django") (Some NotAFormatter_class) g_registered) = Ok tt.
Proof.
  split; [reflexivity|]. split; [reflexivity|]. split.
  - exact (init_with_framework_ignores_custom_formatter g_registered "django"
             (Some NotAFormatter_class) eq_refl).
  - vm_compute. reflexivity.
Defined.

Lemma init_retry_after_unknown_framework_witness :
  _framework_support_map g_registered !! lower "Flask" = None
  /\ snd (init (Some "Flask") None g_registered)
     = Raise (RuntimeError "flaskis not a supported framework")
  /\ snd (init (Some "django") None (fst (init (Some "Flask") None g_registered))) = Ok tt
  /\ _current_framework
       (fst (init (Some "django") None (fst (init (Some "Flask") None g_registered))))
     = Some django_binding.
Proof.
  assert (Hnone : _framework_support_map g_registered !! lower "Flask" = None)
    by (vm_compute; reflexivity).
  destruct (init_retry_after_unknown_framework g_registered "Flask" "django" django_binding
              django_request_util None None eq_refl eq_refl Hnone eq_refl
              g_registered_lookup (django_binding_starts _))
    as (Hraise & Hok & Hsel & _).
  split; [exact Hnone|]. split; [exact Hraise|]. split; [exact Hok | exact Hsel].
Defined.

Lemma init_disabled_still_updates_loggers_witness :
  ENABLE_JSON_LOGGING g_off = false
  /\ snd (init (Some "django") None g_off) = Ok tt
  /\ emitted (fst (init (Some "django") None g_off))
     = (emitted g_off
        ++ [Log INFO "init framework django";
            Log WARNING "JSON format is not enable! To enable set ENABLE_JSON_LOGGING env var to either one of following values: ['true', '1', 'y', 'yes']";
            Log DEBUG "Update all existing logger to using JSONLogFormatter";
            UpdateFormatterForLoggers JSONLogWebFormatter])%list.
Proof.
  split; [reflexivity|].
  apply (init_disabled_still_updates_loggers g_off (Some "django") None);
    [reflexivity | reflexivity |].
  exists django_binding, django_request_util. split; [vm_compute|]; reflexivity.
Defined.

Lemma init_failed_adapter_blocks_retry_witness :
  snd (register_framework_support "broken" None
         DjangoAppRequestInstrumentationConfigurator_class
         BrokenRequestAdapter_class DjangoResponseAdapter_class g_registered) = Ok tt
  /\ snd (init (Some "broken") None g_broken) = Raise (ValueError "no backend")
  /\ is_Some (_current_framework (fst (init (Some "broken") None g_broken)))
  /\ _request_util (fst (init (Some "broken") None g_broken)) = None
  /\ snd (init (Some "django") None (fst (init (Some "broken") None g_broken)))
     = Raise (RuntimeError "Can not call init more than once").
Proof.
  split; [reflexivity|].
  destruct (init_failed_adapter_blocks_retry g_broken "broken"
              {| app_configurator := None;
                 app_request_instrumentation_configurator :=
                   DjangoAppRequestInstrumentationConfigurator_class;
                 request_adapter_class := BrokenRequestAdapter_class;
                 response_adapter_class := DjangoResponseAdapter_class |}
              (ValueError "no backend") None)
    as (Hraise & Hactive & Hru & Hretry);
    [reflexivity | reflexivity | vm_compute; reflexivity | reflexivity |].
  split; [exact Hraise|]. split; [rewrite Hactive; eexists; reflexivity|].
  split; [rewrite Hru; reflexivity|].
  rewrite (Hretry (Some "django") None). reflexivity.
Defined.

Lemma init_request_instrument_needs_framework_witness :
  init_request_instrument example_config tt (fst (init None None g_registered))
  = Raise (RuntimeError "please init the logging first, call init(framework_name) first")
  /\ init_request_instrument example_config tt g_django
     = Ok [("stdout", JSONRequestLogFormatter)].
Proof.
  split.
  - exact (init_request_instrument_needs_framework g_registered example_config tt None None
             eq_refl eq_refl).
  - vm_compute. reflexivity.
Defined.

Lemma non_web_mode_has_no_request_util_witness :
  update_response_status (fst (init None None g_registered)) t_50ms example_response
    info_open
  = (info_open, Raise (AttributeError "'NoneType' object has no attribute 'response_adapter'"))
  /\ JSONRequestLogFormatter_object (fst (init None None g_registered)) t_1s
       (0%nat, access_record info_open)
     = ((0%nat, access_record info_open),
        Raise (AttributeError "'NoneType' object has no attribute 'request_adapter'")).
Proof.
  exact (non_web_mode_has_no_request_util g_registered None None t_50ms example_response
           info_open 0%nat (access_record info_open) eq_refl eq_refl eq_refl).
Defined.

Lemma django_set_correlation_id_preserves_facts_witness :
  Django.header_name_converted "X-Request-ID" <> "HTTP_X_CORRELATION_ID"
  /\ Django.DjangoRequestAdapter.get_http_header
       (Django.DjangoRequestAdapter.set_correlation_id example_request "c-1")
       "X-Request-ID" EMPTY_VALUE
     = Ok "req-42".
Proof.
  assert (Hne : Django.header_name_converted "X-Request-ID" <> "HTTP_X_CORRELATION_ID")
    by (vm_compute; discriminate).
  split; [exact Hne|].
  destruct (django_set_correlation_id_preserves_facts example_request "c-1"
              "X-Request-ID" EMPTY_VALUE) as (_ & _ & _ & _ & _ & _ & Hheader).
  rewrite (Hheader Hne). vm_compute. reflexivity.
Defined.

Lemma response_time_ms_when_clock_steps_back_witness :
  elapsed_microseconds t_50ms t_arrival = -50000
  /\ response_time_ms
       (fst (update_response_status g_django t_arrival example_response
               (RequestInfo_new t_50ms example_request)))
     = Some 950.
Proof.
  split; [vm_compute; reflexivity|].
  apply (response_time_ms_when_clock_steps_back g_django django_request_util t_50ms
           t_arrival example_request example_response g_django_request_util).
  - change (elapsed_microseconds t_50ms t_arrival) with (-50000). lia.
  - vm_compute. discriminate.
Defined.

Lemma update_response_status_partial_witness :
  snd (update_response_status g_django t_50ms response_without_content_type info_open)
  = Raise (KeyError "content-type")
  /\ response_status
       (fst (update_response_status g_django t_50ms response_without_content_type
               info_open))
     = Some (PInt 304)
  /\ response_sent_at
       (fst (update_response_status g_django t_50ms response_without_content_type
               info_open))
     = None.
Proof.
  destruct (update_response_status_partial g_django django_request_util t_50ms
              response_without_content_type info_open (PInt 304) (PStr EMPTY_VALUE)
              (KeyError "content-type") g_django_request_util eq_refl eq_refl eq_refl)
    as [Hupd _].
  rewrite Hupd. repeat split.
Defined.

Lemma fixed_keys_lead_the_object_witness :
  exists s' obj rest,
    JSONLogWebFormatter_object g_ambient t_arrival example_record
      (0%nat, Some example_request) = (s', Ok obj)
    /\ dict_keys obj
       = (["type"; "written_at"; "written_ts"; "component_id"; "component_name";
           "component_instance"; "logger"; "thread"; "level"; "module"; "line_no";
           "correlation_id"; "msg"] ++ rest)%list.
Proof.
  destruct (fixed_keys_lead_the_object g_ambient t_arrival example_record) as [_ Hweb].
  destruct (JSONLogWebFormatter_object g_ambient t_arrival example_record
              (0%nat, Some example_request)) as [s' [obj|e]] eqn:Hobj.
  - destruct (Hweb _ _ _ Hobj) as [rest Hrest]. exists s', obj, rest. auto.
  - vm_compute in Hobj. discriminate.
Defined.

Lemma no_exception_no_exc_fields_witness :
  dict_get "exc_info" (JSONLogFormatter_object t_arrival example_record) = None
  /\ dict_get "filename" (JSONLogFormatter_object t_arrival example_record) = None.
Proof.
  apply (no_exception_no_exc_fields t_arrival example_record).
  - reflexivity.
  - left. reflexivity.
  - intros p Hp. injection Hp as <-. split; reflexivity.
Defined.

Lemma exception_fields_override_props_witness :
  dict_get "filename" (JSONLogFormatter_object t_arrival example_record_exc)
  = Some (PStr "views.py")
  /\ dict_get "exc_info" (JSONLogFormatter_object t_arrival example_record_exc)
     = Some (PStr "Traceback (most recent call last): ...ValueError: bad order").
Proof.
  destruct (exception_fields_override_props t_arrival example_record_exc eq_refl)
    as [Hexc Hfile].
  split; [exact Hfile | exact Hexc].
Defined.

Lemma web_object_agrees_with_plain_witness :
  exists s' obj,
    JSONLogWebFormatter_object g_ambient t_arrival example_record
      (0%nat, Some example_request) = (s', Ok obj)
    /\ dict_get "level" obj
       = dict_get "level" (JSONLogFormatter_object t_arrival example_record).
Proof.
  destruct (JSONLogWebFormatter_object g_ambient t_arrival example_record
              (0%nat, Some example_request)) as [s' [obj|e]] eqn:Hobj.
  - exists s', obj. split; [reflexivity|].
    apply (web_object_agrees_with_plain g_ambient t_arrival example_record
             (0%nat, Some example_request) s' obj "level" Hobj).
    discriminate.
  - vm_compute in Hobj. discriminate.
Defined.

Lemma django_response_in_access_log_witness :
  exists s' obj,
    JSONRequestLogFormatter_object g_django t_1s
      (0%nat,
       access_record (fst (update_response_status g_django t_50ms example_response_sized
                             info_open)))
    = (s', Ok obj)
    /\ dict_get "response_status" obj = Some (PInt 200)
    /\ dict_get "response_content_type" obj = Some (PStr "application/json")
    /\ dict_get "response_size_b" obj = Some (PStr "1234").
Proof.
  apply (django_response_in_access_log g_django django_request_util t_arrival t_50ms t_1s
           example_request example_response_sized "application/json" 0%nat
           (access_record (fst (update_response_status g_django t_50ms
                                  example_response_sized info_open)))
           g_django_request_util django_request_adapter_total eq_refl eq_refl).
  - intros e He. discriminate He.
  - reflexivity.
Defined.

Lemma middleware_never_logs_witness :
  Middleware_call g_django t_arrival t_50ms (Middleware_new (fun _ => Ok example_response))
    example_request (None, [])
  = ((Some info_closed, []),
     Raise (AttributeError "'Middleware' object has no attribute 'request_logger'")).
Proof.
  destruct (middleware_never_logs g_django t_arrival t_50ms
              (fun _ => Ok example_response) example_request (None, []))
    as (_ & _ & Hraise).
  exact (Hraise django_request_util example_response (PInt 200) (PInt 1234)
           (PStr "application/json") g_django_request_util eq_refl eq_refl eq_refl eq_refl).
Defined.

(** ** The Django request in the access log *)

Section DjangoRequestMore.
Context {U : Util} {Resp : Type}.
Implicit Types (g : globals Django.HttpRequest Resp) (r : Django.HttpRequest).
#[local] Arguments get_correlation_id : simpl never.

(** With the Django adapter, the request the lookup hands back is the
    request itself or the request with the id stored on it. *)
Lemma django_get_correlation_id_request g (ru : RequestUtil Django.HttpRequest Resp) r
    (n : nat) :
  request_adapter ru = Django.request_adapter ->
  exists n' cid r',
    get_correlation_id ru g None (Some r) n = (n', Ok (cid, Some r'))
    /\ (r' = r \/ r' = Django.DjangoRequestAdapter.set_correlation_id r cid).
Proof.
  intros Hra. unfold get_correlation_id. rewrite Hra. py_unfold.
  destruct (first_header_value_total Django.request_adapter r (CORRELATION_ID_HEADERS g)
              django_request_adapter_total) as [[v|] Hf].
  - rewrite (resolve_found _ g r v n Hf). eauto 6.
  - rewrite (resolve_not_found _ g r n Hf).
    destruct (CREATE_CORRELATION_ID_IF_NOT_EXISTS g); simpl; eauto 6.
Qed.

(** X20: with the Django request adapter, the request fields of the
    access log are read off the request as follows, whether or not the
    formatter stored a correlation id on it: [remote_user] is the user's
    name or the sentinel; [request] the path; [referer] and
    [x_forwarded_for] the [META] entries [HTTP_REFERER] and
    [HTTP_X_FORWARDED_FOR]; [remote_ip] and [remote_host] both
    [REMOTE_ADDR]; [remote_port] always the sentinel; [request_size_b] the
    parsed [CONTENT_LENGTH]. *)
Theorem django_request_in_access_log g (ru : RequestUtil Django.HttpRequest Resp)
    (utcnow : datetime) (n : nat) (record : LogRecord Django.HttpRequest)
    (info : RequestInfo Django.HttpRequest) (ms : Z) (status size content_type : pyval)
    (sent_at : string) :
  _request_util g = Some ru ->
  request_adapter ru = Django.request_adapter ->
  request_info record = Some info ->
  response_time_ms info = Some ms ->
  response_status info = Some status ->
  response_size_b info = Some size ->
  response_content_type info = Some content_type ->
  response_sent_at info = Some sent_at ->
  exists s' obj,
    JSONRequestLogFormatter_object g utcnow (n, record) = (s', Ok obj)
    /\ dict_get "remote_user" obj
       = Some (PStr match Django.user (request info) with
                    | Some username => username
                    | None => EMPTY_VALUE
                    end)
    /\ dict_get "request" obj = Some (PStr (Django.path (request info)))
    /\ dict_get "method" obj = Some (PStr (Django.method (request info)))
    /\ dict_get "referer" obj
       = Some (PStr (Django.META_get (request info) "HTTP_REFERER" EMPTY_VALUE))
    /\ dict_get "x_forwarded_for" obj
       = Some (PStr (Django.META_get (request info) "HTTP_X_FORWARDED_FOR" EMPTY_VALUE))
    /\ dict_get "protocol" obj
       = Some (PStr (Django.META_get (request info) "SERVER_PROTOCOL" EMPTY_VALUE))
    /\ dict_get "remote_ip" obj
       = Some (PStr (Django.META_get (request info) "REMOTE_ADDR" EMPTY_VALUE))
    /\ dict_get "remote_host" obj
       = Some (PStr (Django.META_get (request info) "REMOTE_ADDR" EMPTY_VALUE))
    /\ dict_get "remote_port" obj = Some (PStr EMPTY_VALUE)
    /\ dict_get "request_size_b" obj
       = Some (PInt (parse_int (Django.META_get (request info) "CONTENT_LENGTH" EMPTY_VALUE)
                       (-1))).
Proof.
  intros Hru Hra Hinfo Hms Hst Hsz Hct Hsent.
  destruct (django_get_correlation_id_request g ru (request info) n Hra)
    as (n' & cid & r' & Hcid & Hr').
  destruct ru as [ra rsa]. simpl in Hra. subst ra.
  unfold JSONRequestLogFormatter_object, with_counter. py_unfold. simpl.
  rewrite Hinfo, Hru. simpl. rewrite Hcid. simpl.
  rewrite Hms, Hst, Hsz, Hct, Hsent.
  unfold Django.DjangoRequestAdapter.get_remote_user,
    Django.DjangoRequestAdapter.get_protocol, Django.DjangoRequestAdapter.get_remote_ip,
    Django.DjangoRequestAdapter.get_http_header,
    Django.DjangoRequestAdapter.get_content_length.
  change (Django.header_name_converted "referer") with "HTTP_REFERER".
  change (Django.header_name_converted "x-forwarded-for") with "HTTP_X_FORWARDED_FOR".
  destruct Hr' as [-> | ->].
  - destruct (Django.user (request info)); simpl; do 2 eexists;
      (split; [reflexivity|]); repeat split; reflexivity.
  - rewrite !django_set_correlation_id_frame by discriminate.
    unfold Django.DjangoRequestAdapter.set_correlation_id, Django.META_set. simpl.
    destruct (Django.user (request info)); simpl; do 2 eexists;
      (split; [reflexivity|]); repeat split; reflexivity.
Qed.

End DjangoRequestMore.

Lemma django_request_in_access_log_witness :
  exists s' obj,
    JSONRequestLogFormatter_object g_django t_1s (0%nat, access_record info_closed)
    = (s', Ok obj)
    /\ dict_get "request" obj = Some (PStr "/orders")
    /\ dict_get "remote_host" obj = Some (PStr "10.0.0.7")
    /\ dict_get "request_size_b" obj = Some (PInt 512).
Proof.
  destruct (django_request_in_access_log g_django django_request_util t_1s 0%nat
              (access_record info_closed) info_closed 50 (PInt 200) (PInt 1234)
              (PStr "application/json") "2000-01-01T00:00:00.050Z"
              g_django_request_util eq_refl eq_refl eq_refl eq_refl eq_refl eq_refl eq_refl)
    as (s' & obj & Hobj & _ & Hpath & _ & _ & _ & _ & _ & Hhost & _ & Hsize).
  exists s', obj. repeat split; assumption.
Defined.
